(** * A shallow embedding of the simulated brokerage ledger

    Sources embedded: [src/brokers/models.py] (the ledger data model),
    [src/brokers/base.py] (the exception classes) and
    [src/brokers/mock.py] (the [MockBroker] execution engine and its
    snapshot loader).

    Conventions of the embedding.
    - Python [float] amounts (cash, prices, costs) are exact rationals [Q];
      binary64 rounding is outside the model.  Python [int] quantities are
      [Z].  The Python rules that matter are written out: [/] raises
      [ZeroDivisionError] on a zero divisor, [int(x)] truncates toward
      zero, and a float is falsy exactly when it is zero.
    - Dictionaries are [gmap]s keyed by strings.
    - A method of [MockBroker] is a computation in a state-and-exception
      monad over the broker record: an exception keeps the mutations that
      were made before it was raised, as in Python.
    - [uuid4()] and [datetime.now()] are inputs of the environment,
      passed explicitly to [submit_order]; the price provider is a pure
      function.
    - Left out: the [state_file] and [auto_save] settings, [save_state],
      [get_orders], [get_performance_summary], and the texts that
      [load_state] prints. *)

From stdpp Require Import base option strings gmap fin_maps.
From Stdlib Require Import ZArith QArith Qabs Qround Lia Lqa.

Local Open Scope Z_scope.
Local Open Scope Q_scope.

(** ** Python arithmetic on exact amounts *)

Module Py.

(** [x == 0] on floats, also the negation of the truth value of [x]. *)
Definition is_zero (x : Q) : bool := Qeq_bool x 0.

Definition ltb (x y : Q) : bool := negb (Qle_bool y x).
Definition gtb (x y : Q) : bool := ltb y x.

(** [int(x)]: truncation toward zero. *)
Definition int (x : Q) : Z := Z.quot (Qnum x) (Zpos (Qden x)).

(** [float(n)] for an [int] operand of a mixed operation. *)
Definition float (n : Z) : Q := inject_Z n.

(** [x / y] on floats: [None] stands for [ZeroDivisionError]. *)
Definition div (x y : Q) : option Q :=
  if is_zero y then None else Some (x / y).

End Py.

(** ** Ledger data model ([models.py]) *)

Inductive OrderSide := BUY | SELL.
Inductive OrderType := MARKET | LIMIT | STOP | STOP_LIMIT.
Inductive OrderStatus :=
  PENDING | SUBMITTED | PARTIAL | FILLED | CANCELLED | REJECTED | EXPIRED.
Inductive PositionSide := LONG | SHORT.

#[global] Instance OrderSide_eq_dec : EqDecision OrderSide.
Proof. solve_decision. Defined.
#[global] Instance OrderType_eq_dec : EqDecision OrderType.
Proof. solve_decision. Defined.
#[global] Instance OrderStatus_eq_dec : EqDecision OrderStatus.
Proof. solve_decision. Defined.
#[global] Instance PositionSide_eq_dec : EqDecision PositionSide.
Proof. solve_decision. Defined.

(** Timestamps are kept in their canonical textual form. *)
Definition datetime := string.

(** The texts the engine writes into [OrderResult.message]; each
    constructor stands for one f-string of [mock.py] and carries the
    values that the f-string formats. *)
Inductive Message :=
| NoPriceAvailable (ticker : string)
    (* f"No price available for {order.ticker}" *)
| SlippageExceeds (actual_slippage max_slippage : Q)
    (* f"Slippage {actual_slippage:.2%} exceeds max {self._max_slippage:.2%}" *)
| LimitPriceRequired
    (* "Limit price required" *)
| InsufficientCash (ticker : string) (cost cash : Q)
    (* f"Insufficient cash for {ticker}: need {cost:.2f}, have {self._cash:.2f}" *)
| InsufficientMargin (ticker : string) (margin_required : Q)
    (* f"Insufficient margin for short {ticker}: need {margin_required:.2f}" *)
| NoQuantityFilled
    (* "No quantity filled" *)
| PartialFill (quantity requested : Z)
    (* f"Partial fill: {quantity}/{order.quantity}" *)
| LimitNotReached
    (* "Order pending - limit price not reached" *)
| Text (s : string).
    (* any other text, as read back from a snapshot *)

Record Order := mkOrder {
  o_ticker : string;
  o_side : OrderSide;
  o_quantity : Z;
  o_order_type : OrderType;
  o_limit_price : option Q;
  o_stop_price : option Q;
  o_position_side : PositionSide;
  o_client_order_id : string;
  o_time_in_force : string
}.

(** [Order.__post_init__]: the three checks that raise [ValueError]. *)
Definition Order_post_init (o : Order) : bool :=
  negb (bool_decide (o_order_type o = LIMIT) && bool_decide (o_limit_price o = None))
  && negb (bool_decide (o_order_type o = STOP) && bool_decide (o_stop_price o = None))
  && negb (o_quantity o <=? 0)%Z.

Record OrderResult := mkOrderResult {
  order_id : string;
  client_order_id : string;
  r_ticker : string;
  r_side : OrderSide;
  quantity_requested : Z;
  quantity_filled : Z;
  status : OrderStatus;
  average_price : option Q;
  message : option Message;
  submitted_at : datetime;
  filled_at : option datetime
}.

Definition is_filled (r : OrderResult) : bool :=
  bool_decide (status r = FILLED).

Definition is_terminal (r : OrderResult) : bool :=
  match status r with
  | FILLED | CANCELLED | REJECTED | EXPIRED => true
  | _ => false
  end.

Definition set_status (s : OrderStatus) (r : OrderResult) : OrderResult :=
  mkOrderResult (order_id r) (client_order_id r) (r_ticker r) (r_side r)
    (quantity_requested r) (quantity_filled r) s (average_price r)
    (message r) (submitted_at r) (filled_at r).

Record Position := mkPosition {
  p_ticker : string;
  quantity : Z;
  side : PositionSide;
  average_cost : Q;
  current_price : Q;
  market_value : Q;
  unrealized_pnl : Q;
  realized_pnl : Q
}.

(** [Position.update_market_data]. *)
Definition update_market_data (price : Q) (p : Position) : Position :=
  mkPosition (p_ticker p) (quantity p) (side p) (average_cost p)
    price
    (Py.float (Z.abs (quantity p)) * price)
    (match side p with
     | LONG => (price - average_cost p) * Py.float (quantity p)
     | SHORT => (average_cost p - price) * Py.float (Z.abs (quantity p))
     end)
    (realized_pnl p).

Record AccountInfo := mkAccountInfo {
  account_id : string;
  a_cash : Q;
  buying_power : Q;
  equity : Q;
  a_margin_used : Q;
  margin_available : Q;
  day_trade_count : Z;
  is_paper : bool
}.

(** ** The engine state ([MockBroker.__init__]) *)

Record MockBroker := mkMockBroker {
  _initial_cash : Q;
  _cash : Q;
  _margin_requirement : Q;
  _margin_used : Q;
  _slippage : Q;
  _max_slippage : Q;
  _price_provider : option (string -> option Q);
  _positions : gmap string Position;
  _orders : gmap string OrderResult;
  _prices : gmap string Q
}.


(** Field assignments [self._x = v]. *)
Definition with_initial_cash (v : Q) (b : MockBroker) : MockBroker :=
  mkMockBroker v (_cash b) (_margin_requirement b) (_margin_used b)
    (_slippage b) (_max_slippage b) (_price_provider b)
    (_positions b) (_orders b) (_prices b).
Definition with_cash (v : Q) (b : MockBroker) : MockBroker :=
  mkMockBroker (_initial_cash b) v (_margin_requirement b) (_margin_used b)
    (_slippage b) (_max_slippage b) (_price_provider b)
    (_positions b) (_orders b) (_prices b).
Definition with_margin_requirement (v : Q) (b : MockBroker) : MockBroker :=
  mkMockBroker (_initial_cash b) (_cash b) v (_margin_used b)
    (_slippage b) (_max_slippage b) (_price_provider b)
    (_positions b) (_orders b) (_prices b).
Definition with_margin_used (v : Q) (b : MockBroker) : MockBroker :=
  mkMockBroker (_initial_cash b) (_cash b) (_margin_requirement b) v
    (_slippage b) (_max_slippage b) (_price_provider b)
    (_positions b) (_orders b) (_prices b).
Definition with_max_slippage (v : Q) (b : MockBroker) : MockBroker :=
  mkMockBroker (_initial_cash b) (_cash b) (_margin_requirement b)
    (_margin_used b) (_slippage b) v (_price_provider b)
    (_positions b) (_orders b) (_prices b).
Definition with_positions (v : gmap string Position) (b : MockBroker) : MockBroker :=
  mkMockBroker (_initial_cash b) (_cash b) (_margin_requirement b)
    (_margin_used b) (_slippage b) (_max_slippage b) (_price_provider b)
    v (_orders b) (_prices b).
Definition with_orders (v : gmap string OrderResult) (b : MockBroker) : MockBroker :=
  mkMockBroker (_initial_cash b) (_cash b) (_margin_requirement b)
    (_margin_used b) (_slippage b) (_max_slippage b) (_price_provider b)
    (_positions b) v (_prices b).
Definition with_prices (v : gmap string Q) (b : MockBroker) : MockBroker :=
  mkMockBroker (_initial_cash b) (_cash b) (_margin_requirement b)
    (_margin_used b) (_slippage b) (_max_slippage b) (_price_provider b)
    (_positions b) (_orders b) v.

(** [MockBroker(initial_cash, margin_requirement, slippage, max_slippage,
    price_provider)]; the defaults of the constructor are 1_000_000.0,
    0.5, 0.0, 0.005 and [None]. *)
Definition MockBroker_init (initial_cash margin_requirement slippage max_slippage : Q)
    (price_provider : option (string -> option Q)) : MockBroker :=
  mkMockBroker initial_cash initial_cash margin_requirement 0
    slippage max_slippage price_provider ∅ ∅ ∅.

(** ** Exceptions and the method monad *)

Inductive Exn :=
| ZeroDivisionError
| InsufficientFundsError (msg : Message)
| KeyError (key : string)
| ValueError (what : string)
| TypeError
| JSONDecodeError.

(** How a method call ends: with a value or with a raised exception, and in
    both cases with the broker as the call left it. *)
Inductive Outcome (A : Type) :=
| Returns (a : A) (b : MockBroker)
| Raises (e : Exn) (b : MockBroker).
Arguments Returns {A} a b.
Arguments Raises {A} e b.

Definition M (A : Type) : Type := MockBroker -> Outcome A.

#[global] Instance M_ret : MRet M := fun A a b => Returns a b.
#[global] Instance M_bind : MBind M := fun A B k m b =>
  match m b with
  | Returns a b' => k a b'
  | Raises e b' => Raises e b'
  end.

Definition self : M MockBroker := fun b => Returns b b.
Definition assign (f : MockBroker -> MockBroker) : M unit := fun b => Returns tt (f b).
Definition raise {A} (e : Exn) : M A := fun b => Raises e b.

(** [try: body  except InsufficientFundsError as e: ...]: only this class
    is caught, every other exception propagates. *)
Definition try_except_InsufficientFundsError {A} (body : M A) : M (Message + A) :=
  fun b =>
    match body b with
    | Returns a b' => Returns (inr a) b'
    | Raises (InsufficientFundsError msg) b' => Returns (inl msg) b'
    | Raises e b' => Raises e b'
    end.

(** [x / y] inside a method. *)
Definition truediv (x y : Q) : M Q :=
  match Py.div x y with
  | Some q => mret q
  | None => raise ZeroDivisionError
  end.

(** The state a call leaves behind, whichever way it ended. *)
Definition final_state {A} (o : Outcome A) : MockBroker :=
  match o with Returns _ b => b | Raises _ b => b end.

(** ** The execution engine ([mock.py]) *)

(** What the environment supplies to one call of [submit_order]: the text of
    the [uuid4()] drawn for the result and the reading of the clock. *)
Record Env := mkEnv { uuid4 : string; now : datetime }.

Definition set_price (ticker : string) (price : Q) : M unit :=
  assign (fun b => with_prices (<[ticker := price]> (_prices b)) b).

(** [self._prices.update(prices)]: the argument's entries win. *)
Definition set_prices (prices : gmap string Q) : M unit :=
  assign (fun b => with_prices (prices ∪ _prices b) b).

Definition get_current_price (ticker : string) (b : MockBroker) : option Q :=
  match _prices b !! ticker with
  | Some price => Some price
  | None =>
      match _price_provider b with
      | Some provider => provider ticker
      | None => None
      end
  end.

Definition _apply_slippage (price : Q) (side : OrderSide) (b : MockBroker) : Q :=
  if Py.is_zero (_slippage b) then price
  else match side with
       | BUY => price * (1 + _slippage b)
       | SELL => price * (1 - _slippage b)
       end.

Definition _get_or_create_position (ticker : string) (side : PositionSide) : M Position :=
  b ← self;
  match _positions b !! ticker with
  | Some position => mret position
  | None =>
      let position := mkPosition ticker 0%Z side 0 0 0 0 0 in
      assign (with_positions (<[ticker := position]> (_positions b)));;
      mret position
  end.

(** Writing a mutated position object back: the object and the dictionary
    entry are one and the same in the source. *)
Definition store_position (ticker : string) (position : Position) : M unit :=
  assign (fun b => with_positions (<[ticker := position]> (_positions b)) b).

Definition del_position (ticker : string) : M unit :=
  assign (fun b => with_positions (delete ticker (_positions b)) b).

Definition with_quantity_cost (q : Z) (c : Q) (p : Position) : Position :=
  mkPosition (p_ticker p) q (side p) c (current_price p) (market_value p)
    (unrealized_pnl p) (realized_pnl p).

Definition with_quantity_realized (q : Z) (r : Q) (p : Position) : Position :=
  mkPosition (p_ticker p) q (side p) (average_cost p) (current_price p)
    (market_value p) (unrealized_pnl p) r.

Definition _execute_long_buy (ticker : string) (qty0 : Z) (price : Q) : M Z :=
  b ← self;
  let cost0 := Py.float qty0 * price in
  '(qty, cost) ←
    (if Py.gtb cost0 (_cash b) then
       (* the division is guarded by [price > 0] *)
       let max_qty := if Py.gtb price 0 then Py.int (_cash b / price) else 0%Z in
       if (max_qty =? 0)%Z
       then raise (InsufficientFundsError (InsufficientCash ticker cost0 (_cash b)))
       else mret (max_qty, Py.float max_qty * price)
     else mret (qty0, cost0));
  position ← _get_or_create_position ticker LONG;
  let old_qty := position.(quantity) in
  let old_cost := position.(average_cost) in
  let new_qty := (old_qty + qty)%Z in
  let new_cost :=
    if (0 <? new_qty)%Z
    then (old_cost * Py.float old_qty + price * Py.float qty) / Py.float new_qty
    else old_cost in
  store_position ticker (with_quantity_cost new_qty new_cost position);;
  assign (fun b => with_cash (_cash b - cost) b);;
  mret qty.

Definition _execute_long_sell (ticker : string) (qty0 : Z) (price : Q) : M Z :=
  b ← self;
  match _positions b !! ticker with
  | None => mret 0%Z
  | Some position =>
      if negb (bool_decide (position.(side) = LONG)) then mret 0%Z else
      let qty := Z.min qty0 position.(quantity) in
      if (qty <=? 0)%Z then mret 0%Z else
      let pnl := (price - position.(average_cost)) * Py.float qty in
      let position' :=
        with_quantity_realized (position.(quantity) - qty)%Z
          (position.(realized_pnl) + pnl) position in
      store_position ticker position';;
      assign (fun b => with_cash (_cash b + Py.float qty * price) b);;
      (if (position'.(quantity) =? 0)%Z then del_position ticker else mret tt);;
      mret qty
  end.

Definition _execute_short_open (ticker : string) (qty0 : Z) (price : Q) : M Z :=
  b ← self;
  let proceeds0 := price * Py.float qty0 in
  let margin_required0 := proceeds0 * _margin_requirement b in
  '(qty, proceeds, margin_required) ←
    (if Py.gtb margin_required0 (_cash b) then
       ratio ← truediv (_cash b) (price * _margin_requirement b);
       let max_qty := Py.int ratio in
       if (max_qty =? 0)%Z
       then raise (InsufficientFundsError (InsufficientMargin ticker margin_required0))
       else
         let proceeds := price * Py.float max_qty in
         mret (max_qty, proceeds, proceeds * _margin_requirement b)
     else mret (qty0, proceeds0, margin_required0));
  position ← _get_or_create_position ticker SHORT;
  let old_qty := Z.abs position.(quantity) in
  let old_cost := position.(average_cost) in
  let new_qty := (old_qty + qty)%Z in
  let new_cost :=
    if (0 <? new_qty)%Z
    then (old_cost * Py.float old_qty + price * Py.float qty) / Py.float new_qty
    else old_cost in
  store_position ticker (with_quantity_cost (- new_qty)%Z new_cost position);;
  assign (fun b => with_margin_used (_margin_used b + margin_required) b);;
  assign (fun b => with_cash (_cash b + (proceeds - margin_required)) b);;
  mret qty.

(** The first, proportional value of [margin_to_release] is overwritten
    before it is used; its divisions ([qty / short_qty] with
    [0 < qty <= short_qty], and [/ max(1, short_qty)]) cannot raise, so
    only the second assignment is kept. *)
Definition _execute_short_cover (ticker : string) (qty0 : Z) (price : Q) : M Z :=
  b ← self;
  match _positions b !! ticker with
  | None => mret 0%Z
  | Some position =>
      if negb (bool_decide (position.(side) = SHORT)) then mret 0%Z else
      let short_qty := Z.abs position.(quantity) in
      let qty := Z.min qty0 short_qty in
      if (qty <=? 0)%Z then mret 0%Z else
      let cover_cost := Py.float qty * price in
      let pnl := (position.(average_cost) - price) * Py.float qty in
      let margin_to_release := cover_cost * _margin_requirement b in
      let position' :=
        with_quantity_realized (position.(quantity) + qty)%Z
          (position.(realized_pnl) + pnl) position in
      store_position ticker position';;
      assign (fun b => with_margin_used (_margin_used b - margin_to_release) b);;
      assign (fun b => with_cash (_cash b + (margin_to_release - cover_cost)) b);;
      (if (position'.(quantity) =? 0)%Z then del_position ticker else mret tt);;
      mret qty
  end.

Definition _create_filled_result (env : Env) (order : Order) (quantity : Z) (price : Q)
    : OrderResult :=
  mkOrderResult (uuid4 env) (o_client_order_id order) (o_ticker order) (o_side order)
    (o_quantity order) quantity FILLED (Some price) None (now env) (Some (now env)).

Definition _create_partial_result (env : Env) (order : Order) (quantity : Z) (price : Q)
    : OrderResult :=
  mkOrderResult (uuid4 env) (o_client_order_id order) (o_ticker order) (o_side order)
    (o_quantity order) quantity PARTIAL (Some price)
    (Some (PartialFill quantity (o_quantity order))) (now env) None.

Definition _create_rejected_result (env : Env) (order : Order) (msg : Message)
    : OrderResult :=
  mkOrderResult (uuid4 env) (o_client_order_id order) (o_ticker order) (o_side order)
    (o_quantity order) 0%Z REJECTED None (Some msg) (now env) None.

Definition store_order (result : OrderResult) : M unit :=
  assign (fun b => with_orders (<[order_id result := result]> (_orders b)) b).

Definition _create_pending_result (env : Env) (order : Order) : M OrderResult :=
  let result :=
    mkOrderResult (uuid4 env) (o_client_order_id order) (o_ticker order) (o_side order)
      (o_quantity order) 0%Z PENDING None (Some LimitNotReached) (now env) None in
  store_order result;;
  mret result.

(** The [if/elif/else] on the order type.  [inl r] is an early
    [return r]; [inr exec_price] falls through to the execution. *)
Definition determine_exec_price (env : Env) (order : Order) (current_price : Q)
    : M (OrderResult + Q) :=
  b ← self;
  match o_order_type order with
  | MARKET =>
      let exec_price := _apply_slippage current_price (o_side order) b in
      if Py.gtb (_max_slippage b) 0 then
        actual_slippage ← truediv (Qabs (exec_price - current_price)) current_price;
        if Py.gtb actual_slippage (_max_slippage b)
        then mret (inl (_create_rejected_result env order
                          (SlippageExceeds actual_slippage (_max_slippage b))))
        else mret (inr exec_price)
      else mret (inr exec_price)
  | LIMIT =>
      match o_limit_price order with
      | None => mret (inl (_create_rejected_result env order LimitPriceRequired))
      | Some limit_price =>
          if bool_decide (o_side order = BUY) && Py.gtb current_price limit_price
          then r ← _create_pending_result env order; mret (inl r)
          else if bool_decide (o_side order = SELL) && Py.ltb current_price limit_price
          then r ← _create_pending_result env order; mret (inl r)
          else mret (inr limit_price)
      end
  | _ => mret (inr (_apply_slippage current_price (o_side order) b))
  end.

(** The dispatch on [(position_side, side)] inside the [try]. *)
Definition execute_primitive (order : Order) (exec_price : Q) : M Z :=
  match o_position_side order, o_side order with
  | LONG, BUY => _execute_long_buy (o_ticker order) (o_quantity order) exec_price
  | LONG, SELL => _execute_long_sell (o_ticker order) (o_quantity order) exec_price
  | SHORT, SELL => _execute_short_open (o_ticker order) (o_quantity order) exec_price
  | SHORT, BUY => _execute_short_cover (o_ticker order) (o_quantity order) exec_price
  end.

(** The last part of [submit_order]: the [try] around the primitive, the
    result built from the filled quantity, and its recording. *)
Definition execute_and_record (env : Env) (order : Order) (exec_price : Q)
    : M OrderResult :=
  attempt ← try_except_InsufficientFundsError (execute_primitive order exec_price);
  match attempt with
  | inl e => mret (_create_rejected_result env order e)
  | inr filled_qty =>
      let result :=
        if (filled_qty =? 0)%Z
        then _create_rejected_result env order NoQuantityFilled
        else if (filled_qty <? o_quantity order)%Z
        then _create_partial_result env order filled_qty exec_price
        else _create_filled_result env order filled_qty exec_price in
      store_order result;;
      mret result
  end.

Definition submit_order (env : Env) (order : Order) : M OrderResult :=
  b ← self;
  match get_current_price (o_ticker order) b with
  | None =>
      mret (_create_rejected_result env order (NoPriceAvailable (o_ticker order)))
  | Some current_price =>
      stage ← determine_exec_price env order current_price;
      match stage with
      | inl early => mret early
      | inr exec_price => execute_and_record env order exec_price
      end
  end.

Definition cancel_order (oid : string) : M bool :=
  b ← self;
  match _orders b !! oid with
  | None => mret false
  | Some order =>
      if is_terminal order then mret false
      else
        assign (with_orders (<[oid := set_status CANCELLED order]> (_orders b)));;
        mret true
  end.

Definition get_order (oid : string) (b : MockBroker) : option OrderResult :=
  _orders b !! oid.

(** The refresh that [get_position] and [get_positions] apply to a position:
    [if price: position.update_market_data(price)]. *)
Definition refresh (b : MockBroker) (ticker : string) (position : Position) : Position :=
  match get_current_price ticker b with
  | Some price => if Py.is_zero price then position else update_market_data price position
  | None => position
  end.

Definition get_position (ticker : string) : M (option Position) :=
  b ← self;
  match _positions b !! ticker with
  | None => mret None
  | Some position =>
      let position' := refresh b ticker position in
      store_position ticker position';;
      mret (Some position')
  end.

Definition get_positions : M (gmap string Position) :=
  b ← self;
  let positions := map_imap (fun ticker position => Some (refresh b ticker position))
                     (_positions b) in
  assign (with_positions positions);;
  mret positions.

(** [sum(pos.market_value for pos in self._positions.values())]. *)
Definition positions_value (positions : gmap string Position) : Q :=
  map_fold (fun _ pos acc => acc + market_value pos) 0 positions.

Definition get_account (b : MockBroker) : AccountInfo :=
  let equity := _cash b + positions_value (_positions b) in
  mkAccountInfo "mock-account" (_cash b) (_cash b - _margin_used b) equity
    (_margin_used b) (_cash b - _margin_used b) 0%Z true.

Definition reset : M unit :=
  assign (fun b =>
    mkMockBroker (_initial_cash b) (_initial_cash b) (_margin_requirement b) 0
      (_slippage b) (_max_slippage b) (_price_provider b) ∅ ∅ ∅).

(** ** Loading a snapshot ([MockBroker.load_state]) *)

(** The parsed JSON document, for documents whose present values have the
    types [save_state] writes.  [None] in a field is an absent key; the
    [positions] and [orders] objects are given by their [items()], in the
    order of the file. *)
Record PositionData := mkPositionData {
  pd_quantity : option Z;
  pd_side : option string;
  pd_average_cost : option Q;
  pd_realized_pnl : option Q
}.

Record OrderData := mkOrderData {
  od_order_id : option string;
  od_client_order_id : option string;
  od_ticker : option string;
  od_side : option string;
  od_quantity_requested : option Z;
  od_quantity_filled : option Z;
  od_status : option string;
  od_average_price : option Q;
  od_message : option string;
  od_submitted_at : option string;
  od_filled_at : option string
}.

Record StateDocument := mkStateDocument {
  sd_initial_cash : option Q;
  sd_cash : option Q;
  sd_margin_requirement : option Q;
  sd_margin_used : option Q;
  sd_max_slippage : option Q;
  sd_prices : option (gmap string Q);
  sd_positions : option (list (string * PositionData));
  sd_orders : option (list (string * OrderData))
}.

(** What [load_state] finds at the path. *)
Inductive StateFile :=
| NoFile                          (* [path.exists()] is false *)
| Malformed                       (* [json.load] raises *)
| NotAnObject                     (* valid JSON, but not an object *)
| Document (state : StateDocument).

(** The enumeration constructors applied to a string. *)
Definition PositionSide_of (s : string) : M PositionSide :=
  if decide (s = "long") then mret LONG
  else if decide (s = "short") then mret SHORT
  else raise (ValueError s).

Definition OrderSide_of (s : string) : M OrderSide :=
  if decide (s = "buy") then mret BUY
  else if decide (s = "sell") then mret SELL
  else raise (ValueError s).

Definition OrderStatus_of (s : string) : M OrderStatus :=
  if decide (s = "pending") then mret PENDING
  else if decide (s = "submitted") then mret SUBMITTED
  else if decide (s = "partial") then mret PARTIAL
  else if decide (s = "filled") then mret FILLED
  else if decide (s = "cancelled") then mret CANCELLED
  else if decide (s = "rejected") then mret REJECTED
  else if decide (s = "expired") then mret EXPIRED
  else raise (ValueError s).

(** [d[key]]: [KeyError] when the key is absent. *)
Definition subscript {A} (key : string) (field : option A) : M A :=
  match field with
  | Some v => mret v
  | None => raise (KeyError key)
  end.

Fixpoint for_each {A} (body : A -> M unit) (items : list A) : M unit :=
  match items with
  | [] => mret tt
  | x :: rest => body x;; for_each body rest
  end.

(** [try: body  except Exception as e: print(...); return False]. *)
Definition try_except_Exception (body : M bool) : M bool :=
  fun b =>
    match body b with
    | Returns a b' => Returns a b'
    | Raises _ b' => Returns false b'
    end.

Section Codec.

(** [datetime.fromisoformat]; [None] stands for its [ValueError]. *)
Variable fromisoformat : string -> option datetime.

Definition parse_datetime (s : string) : M datetime :=
  match fromisoformat s with
  | Some t => mret t
  | None => raise (ValueError s)
  end.

Definition load_position (item : string * PositionData) : M unit :=
  let '(ticker, pos_data) := item in
  qty ← subscript "quantity" (pd_quantity pos_data);
  side_text ← subscript "side" (pd_side pos_data);
  side ← PositionSide_of side_text;
  average_cost ← subscript "average_cost" (pd_average_cost pos_data);
  let realized_pnl := default 0 (pd_realized_pnl pos_data) in
  store_position ticker (mkPosition ticker qty side average_cost 0 0 0 realized_pnl).

Definition load_order (item : string * OrderData) : M unit :=
  let '(oid, order_data) := item in
  order_id ← subscript "order_id" (od_order_id order_data);
  client_order_id ← subscript "client_order_id" (od_client_order_id order_data);
  ticker ← subscript "ticker" (od_ticker order_data);
  side_text ← subscript "side" (od_side order_data);
  side ← OrderSide_of side_text;
  quantity_requested ← subscript "quantity_requested" (od_quantity_requested order_data);
  quantity_filled ← subscript "quantity_filled" (od_quantity_filled order_data);
  status_text ← subscript "status" (od_status order_data);
  status ← OrderStatus_of status_text;
  submitted_text ← subscript "submitted_at" (od_submitted_at order_data);
  submitted_at ← parse_datetime submitted_text;
  filled_at ←
    match od_filled_at order_data with
    | Some s => if decide (s = "") then mret None
                else t ← parse_datetime s; mret (Some t)
    | None => mret None
    end;
  assign (fun b => with_orders
    (<[oid := mkOrderResult order_id client_order_id ticker side
                quantity_requested quantity_filled status
                (od_average_price order_data) (Text <$> od_message order_data)
                submitted_at filled_at]> (_orders b)) b).

Definition restore (state : StateDocument) : M bool :=
  (* Restore basic state *)
  initial_cash ← subscript "initial_cash" (sd_initial_cash state);
  assign (with_initial_cash initial_cash);;
  cash ← subscript "cash" (sd_cash state);
  assign (with_cash cash);;
  margin_requirement ← subscript "margin_requirement" (sd_margin_requirement state);
  assign (with_margin_requirement margin_requirement);;
  margin_used ← subscript "margin_used" (sd_margin_used state);
  assign (with_margin_used margin_used);;
  assign (with_max_slippage (default (5 # 1000) (sd_max_slippage state)));;
  assign (with_prices (default ∅ (sd_prices state)));;
  (* Restore positions *)
  assign (with_positions ∅);;
  for_each load_position (default [] (sd_positions state));;
  (* Restore orders *)
  assign (with_orders ∅);;
  for_each load_order (default [] (sd_orders state));;
  mret true.

Definition load_state (file : StateFile) : M bool :=
  match file with
  | NoFile => mret false
  | Malformed => try_except_Exception (raise JSONDecodeError)
  | NotAnObject => try_except_Exception (raise TypeError)
  | Document state => try_except_Exception (restore state)
  end.

End Codec.

(** ** The rest of the engine's query surface ([mock.py]) *)

(** [get_orders(status)].  The source lists the values of the order
    dictionary in insertion order; here they come in the order of the map's
    keys, so only the membership of the result is meaningful. *)
Definition get_orders (status_filter : option string) (b : MockBroker)
    : list OrderResult :=
  let orders := (map_to_list (_orders b)).*2 in
  if decide (status_filter = Some "open")
  then filter (fun o => is_terminal o = false) orders
  else if decide (status_filter = Some "closed")
  then filter (fun o => is_terminal o = true) orders
  else orders.

Record PerformanceSummary := mkPerformanceSummary {
  initial_capital : Q;
  current_equity : Q;
  s_cash : Q;
  s_positions_value : Q;
  total_pnl : Q;
  total_pnl_percent : Q;
  s_realized_pnl : Q;
  s_unrealized_pnl : Q;
  total_trades : Z;
  winning_trades : Z;
  losing_trades : Z;
  win_rate : Q
}.

(** The counting loops of [get_performance_summary]. *)
Definition count_winning (positions : gmap string Position) : Z :=
  map_fold (fun _ pos n => if Py.gtb (realized_pnl pos) 0 then (n + 1)%Z else n)
    0%Z positions.

Definition count_losing (positions : gmap string Position) : Z :=
  map_fold (fun _ pos n =>
              if Py.gtb (realized_pnl pos) 0 then n
              else if Py.ltb (realized_pnl pos) 0 then (n + 1)%Z else n)
    0%Z positions.

Definition count_filled (orders : gmap string OrderResult) : Z :=
  map_fold (fun _ o n => if bool_decide (status o = FILLED) then (n + 1)%Z else n)
    0%Z orders.

(** [get_performance_summary].  Both divisions are guarded by the
    conditional expression they stand in. *)
Definition get_performance_summary : M PerformanceSummary :=
  positions ← get_positions;
  b ← self;
  let value := map_fold (fun _ pos acc => acc + market_value pos) 0 positions in
  let realized := map_fold (fun _ pos acc => acc + realized_pnl pos) 0 positions in
  let unrealized := map_fold (fun _ pos acc => acc + unrealized_pnl pos) 0 positions in
  let equity_now := _cash b + value in
  let pnl := equity_now - _initial_cash b in
  let pnl_percent :=
    if Py.gtb (_initial_cash b) 0 then (pnl / _initial_cash b) * 100 else 0 in
  let trades := count_filled (_orders b) in
  let winning := count_winning positions in
  let losing := count_losing positions in
  let rate :=
    if (0 <? winning + losing)%Z
    then Py.float winning / Py.float (winning + losing) * 100
    else 0 in
  mret (mkPerformanceSummary (_initial_cash b) equity_now (_cash b) value pnl
          pnl_percent realized unrealized trades winning losing rate).

(** ** Saving a snapshot ([MockBroker.save_state]) *)

(** The [.value] of the string-backed enumerations. *)
Definition PositionSide_value (s : PositionSide) : string :=
  match s with LONG => "long" | SHORT => "short" end.

Definition OrderSide_value (s : OrderSide) : string :=
  match s with BUY => "buy" | SELL => "sell" end.

Definition OrderStatus_value (s : OrderStatus) : string :=
  match s with
  | PENDING => "pending" | SUBMITTED => "submitted" | PARTIAL => "partial"
  | FILLED => "filled" | CANCELLED => "cancelled" | REJECTED => "rejected"
  | EXPIRED => "expired"
  end.

(** [datetime.isoformat()]: timestamps are already kept as that text. *)
Definition isoformat (t : datetime) : string := t.

Section SaveState.

(** The text of a message, that is the f-string that the constructor of
    [Message] stands for; the formatting of numbers is not modelled. *)
Variable render : Message -> string.

Definition save_position (pos : Position) : PositionData :=
  mkPositionData (Some (quantity pos)) (Some (PositionSide_value (side pos)))
    (Some (average_cost pos)) (Some (realized_pnl pos)).

Definition save_order (order : OrderResult) : OrderData :=
  mkOrderData (Some (order_id order)) (Some (client_order_id order))
    (Some (r_ticker order)) (Some (OrderSide_value (r_side order)))
    (Some (quantity_requested order)) (Some (quantity_filled order))
    (Some (OrderStatus_value (status order))) (average_price order)
    (render <$> message order) (Some (isoformat (submitted_at order)))
    (isoformat <$> filled_at order).

(** [save_state]: the document written to the state file.  The keys
    [version] and [saved_at], which [load_state] does not use to restore the
    ledger, are left out. *)
Definition save_state (b : MockBroker) : StateFile :=
  Document
    (mkStateDocument (Some (_initial_cash b)) (Some (_cash b))
       (Some (_margin_requirement b)) (Some (_margin_used b))
       (Some (_max_slippage b)) (Some (_prices b))
       (Some (map_to_list (save_position <$> _positions b)))
       (Some (map_to_list (save_order <$> _orders b)))).

End SaveState.

(** ** Closing positions ([BaseBroker] in [base.py]) *)

(** The constructor of [Order]: [__post_init__] raises [ValueError]. *)
Definition Order_init (o : Order) : M Order :=
  if bool_decide (o_order_type o = LIMIT) && bool_decide (o_limit_price o = None)
  then raise (ValueError "limit_price is required for LIMIT orders")
  else if bool_decide (o_order_type o = STOP) && bool_decide (o_stop_price o = None)
  then raise (ValueError "stop_price is required for STOP orders")
  else if (o_quantity o <=? 0)%Z
  then raise (ValueError "quantity must be positive")
  else mret o.

(** [close_position].  [client_id] is the [uuid4()] that the constructor of
    [Order] draws for [client_order_id]. *)
Definition close_position (client_id : string) (env : Env) (ticker : string)
    : M (option OrderResult) :=
  position ← get_position ticker;
  match position with
  | None => mret None
  | Some position =>
      if (position.(quantity) =? 0)%Z then mret None else
      let closing_side :=
        match position.(side) with LONG => SELL | SHORT => BUY end in
      order ← Order_init
                 (mkOrder ticker closing_side (Z.abs position.(quantity)) MARKET
                    None None position.(side) client_id "day");
      result ← submit_order env order;
      mret (Some result)
  end.

(** [close_all_positions].  [draws] gives, for the ticker being closed, the
    [uuid4()] texts and the clock reading of that iteration.  The loop runs
    over the keys of the dictionary that [get_positions] returned, here in
    the order of the map's keys. *)
Fixpoint close_each (draws : string -> string * Env) (tickers : list string)
    : M (list OrderResult) :=
  match tickers with
  | [] => mret []
  | ticker :: rest =>
      result ← close_position (draws ticker).1 (draws ticker).2 ticker;
      results ← close_each draws rest;
      mret (match result with Some r => r :: results | None => results end)
  end.

Definition close_all_positions (draws : string -> string * Env)
    : M (list OrderResult) :=
  positions ← get_positions;
  close_each draws (map_to_list positions).*1.

(** ** Trading through the broker ([backtesting/trader.py]) *)

(** The members of [Action] that [trader.py] names.  The enumeration itself
    is declared in [backtesting/types.py]; its string values are taken as
    the parameter [Action_of_text] below. *)
Inductive Action := Action_BUY | Action_SELL | Action_SHORT | Action_COVER | Action_HOLD.

Section TradeExecutor.

(** [Action(text)]; [None] stands for the [ValueError] of an unknown value. *)
Variable Action_of_text : string -> option Action.

(** The coercion of the [action] argument, which is a member of [Action]
    or a string; an exception of the coercion gives [HOLD]. *)
Definition coerce_action (action : string + Action) : Action :=
  match action with
  | inr a => a
  | inl text => default Action_HOLD (Action_of_text text)
  end.

(** [TradeExecutor.execute_trade_via_broker] of an executor that has a
    broker ([MockBroker], which has [set_price]).  [client_id] is the
    [uuid4()] drawn by the constructor of [Order]; [None] for [quantity] or
    [current_price] is Python's [None]. *)
Definition execute_trade_via_broker (client_id : string) (env : Env)
    (ticker : string) (action : string + Action) (qty : option Z)
    (current_price : option Q) (order_type : string) (limit_price : option Q)
    : M (option OrderResult) :=
  match qty with
  | None => mret None
  | Some qty =>
      if (qty <=? 0)%Z then mret None else
      let action_enum := coerce_action action in
      match action_enum with
      | Action_HOLD => mret None
      | _ =>
          match current_price with
          | Some price => set_price ticker price
          | None => mret tt
          end;;
          let '(side, position_side) :=
            match action_enum with
            | Action_BUY => (BUY, LONG)
            | Action_SELL => (SELL, LONG)
            | Action_SHORT => (SELL, SHORT)
            | _ => (BUY, SHORT)
            end in
          let broker_order_type :=
            if decide (order_type = "limit") then LIMIT else MARKET in
          order ← Order_init
                     (mkOrder ticker side qty broker_order_type
                        (match broker_order_type with
                         | LIMIT => limit_price
                         | _ => None
                         end)
                        None position_side client_id "day");
          result ← submit_order env order;
          mret (Some result)
      end
  end.

End TradeExecutor.

(** ** Concrete runs

    The amounts of the runs below are integers or halves, so that binary64
    arithmetic computes them without rounding. *)

Module Scenario.

(** [MockBroker(initial_cash=100000.0)] with the other defaults. *)
Definition fresh : MockBroker := MockBroker_init 100000 (1 # 2) 0 (5 # 1000) None.

Definition market (ticker : string) (side : OrderSide) (qty : Z)
    (position_side : PositionSide) : Order :=
  mkOrder ticker side qty MARKET None None position_side "client-1" "day".

Definition limit (ticker : string) (side : OrderSide) (qty : Z) (limit_price : Q)
    (position_side : PositionSide) : Order :=
  mkOrder ticker side qty LIMIT (Some limit_price) None position_side "client-1" "day".

Definition env (n : string) : Env := mkEnv ("order-" +:+ n) "2024-01-01T09:30:00".

(** The state after a sequence of calls, whichever way each ended. *)
Definition after {A} (call : M A) (b : MockBroker) : MockBroker :=
  final_state (call b).

(** X trades at 100. *)
Definition quoted : MockBroker := after (set_price "X" 100) fresh.

(** A buy limit at 90 while X trades at 100: recorded as PENDING. *)
Definition book_pending : MockBroker :=
  after (submit_order (env "1") (limit "X" BUY 10 90 LONG)) quoted.

(** A market buy of 500 X at 100: FILLED. *)
Definition book_filled : MockBroker :=
  after (submit_order (env "2") (market "X" BUY 500 LONG)) quoted.

(** A market buy of 2000 X at 100 with 100000 in cash: PARTIAL, 1000 filled. *)
Definition book_partial : MockBroker :=
  after (submit_order (env "3") (market "X" BUY 2000 LONG)) quoted.

(** X is quoted at 0, as [set_price("X", 0.0)] leaves it. *)
Definition quoted_zero : MockBroker := after (set_price "X" 0) fresh.

(** Open a short of 5 X at 100, then buy 5 X on the long side. *)
Definition book_short : MockBroker :=
  after (submit_order (env "4") (market "X" SELL 5 SHORT)) quoted.
Definition book_short_then_long : MockBroker :=
  after (submit_order (env "5") (market "X" BUY 5 LONG)) book_short.

(** A snapshot whose object has [initial_cash] and [cash] but none of the
    other keys. *)
Definition truncated_snapshot : StateDocument :=
  mkStateDocument (Some 5000) (Some 7000) None None None None None None.


End Scenario.

(** ** Vocabulary of the statements *)

Definition non_terminal_status (s : OrderStatus) : Prop :=
  s = PENDING \/ s = SUBMITTED \/ s = PARTIAL.

Definition terminal_status (s : OrderStatus) : Prop :=
  s = FILLED \/ s = CANCELLED \/ s = REJECTED \/ s = EXPIRED.


(** The position object that [_get_or_create_position] hands out. *)
Definition position_or_new (ticker : string) (side : PositionSide) (b : MockBroker)
    : Position :=
  default (mkPosition ticker 0%Z side 0 0 0 0 0) (_positions b !! ticker).

(** The ledger after [_execute_long_buy] has filled [qty] at [price]. *)
Definition bought (ticker : string) (qty : Z) (price : Q) (b : MockBroker) : MockBroker :=
  let position := position_or_new ticker LONG b in
  let new_qty := (position.(quantity) + qty)%Z in
  let new_cost :=
    if (0 <? new_qty)%Z
    then (position.(average_cost) * Py.float position.(quantity) + price * Py.float qty)
         / Py.float new_qty
    else position.(average_cost) in
  with_cash (_cash b - Py.float qty * price)
    (with_positions
       (<[ticker := with_quantity_cost new_qty new_cost position]> (_positions b)) b).

(** The quantity that [_execute_long_buy] falls back to when the cost
    exceeds the cash. *)
Definition long_buy_max_qty (price : Q) (b : MockBroker) : Z :=
  if Py.gtb price 0 then Py.int (_cash b / price) else 0%Z.



(** C5 as an invariant of the position map: no entry has quantity zero. *)
Definition no_flat_position (b : MockBroker) : Prop :=
  forall ticker position,
    _positions b !! ticker = Some position -> quantity position <> 0%Z.

(** The sum of the position market values at the current prices, as the
    specification words it: every held position counts for its size times
    the current price of its ticker. *)
Definition positions_value_at_current_prices (b : MockBroker) : Q :=
  map_fold (fun ticker pos acc =>
              acc + Py.float (Z.abs (quantity pos)) * default 0 (get_current_price ticker b))
    0 (_positions b).

(** ** Vocabulary of the further properties *)


(** The sign of a traded amount: a buy pays it, a sell receives it. *)
Definition signed (side : OrderSide) (x : Q) : Q :=
  match side with BUY => - x | SELL => x end.


(** The settings of the engine and its price cache. *)
Definition same_settings (b b' : MockBroker) : Prop :=
  _initial_cash b' = _initial_cash b
  /\ _margin_requirement b' = _margin_requirement b
  /\ _slippage b' = _slippage b
  /\ _max_slippage b' = _max_slippage b
  /\ _price_provider b' = _price_provider b
  /\ _prices b' = _prices b.

(** Cash, margin in use and positions. *)
Definition same_holdings (b b' : MockBroker) : Prop :=
  _cash b' = _cash b /\ _margin_used b' = _margin_used b
  /\ _positions b' = _positions b.



(** The fields of a position that trading sets, as opposed to the fields
    that a read derives from the market. *)
Definition same_basis (p p' : Position) : Prop :=
  p_ticker p' = p_ticker p /\ quantity p' = quantity p /\ side p' = side p
  /\ average_cost p' = average_cost p /\ realized_pnl p' = realized_pnl p.

(** A position as [load_state] rebuilds it from what [save_state] wrote:
    the ticker is the key, the market-derived fields start at zero. *)
Definition reloaded_position (ticker : string) (p : Position) : Position :=
  mkPosition ticker (quantity p) (side p) (average_cost p) 0 0 0 (realized_pnl p).

(** An order result as [load_state] rebuilds it: its message is the text
    that was written. *)
Definition reloaded_order (render : Message -> string) (o : OrderResult) : OrderResult :=
  mkOrderResult (order_id o) (client_order_id o) (r_ticker o) (r_side o)
    (quantity_requested o) (quantity_filled o) (status o) (average_price o)
    (Text <$> (render <$> message o)) (submitted_at o) (filled_at o).

(** The timestamps of an order result are texts that [fromisoformat]
    reads back, as those written by [isoformat] are. *)
Definition readable_timestamps (fromisoformat : string -> option datetime)
    (o : OrderResult) : Prop :=
  fromisoformat (submitted_at o) = Some (submitted_at o)
  /\ forall t, filled_at o = Some t -> t <> "" /\ fromisoformat t = Some t.

(** A position whose quantity has the sign of its side. *)
Definition well_signed (p : Position) : Prop :=
  (side p = LONG /\ (0 < quantity p)%Z) \/ (side p = SHORT /\ (quantity p < 0)%Z).

(** The ticker has a current price, and it is not zero. *)
Definition quoted_nonzero (ticker : string) (b : MockBroker) : Prop :=
  exists price, get_current_price ticker b = Some price /\ ~ price == 0.


(** [if current_price is not None: self._broker.set_price(ticker, price)]. *)
Definition set_price_if_given (ticker : string) (current_price : option Q) : M unit :=
  match current_price with
  | Some price => set_price ticker price
  | None => mret tt
  end.

(** Every position is stored under its own ticker and every order result
    under its own id. *)
Definition keyed (b : MockBroker) : Prop :=
  (forall ticker position,
     _positions b !! ticker = Some position -> p_ticker position = ticker)
  /\ (forall oid order, _orders b !! oid = Some order -> order_id order = oid).

(** * Running methods *)

Ltac unfold_monad :=
  unfold truediv, self, assign, raise, try_except_InsufficientFundsError,
    try_except_Exception in *;
  unfold mbind, M_bind, mret, M_ret in *.

(** * Validated orders *)

Lemma Order_post_init_quantity (o : Order) :
  Order_post_init o = true -> (0 < o_quantity o)%Z.
Proof.
  unfold Order_post_init. rewrite !andb_true_iff.
  intros (_ & Hq). apply negb_true_iff, Z.leb_gt in Hq. exact Hq.
Qed.

Lemma Order_post_init_limit (o : Order) :
  Order_post_init o = true -> o_order_type o = LIMIT ->
  exists limit_price, o_limit_price o = Some limit_price.
Proof.
  unfold Order_post_init. rewrite !andb_true_iff.
  intros ((Hlimit & _) & _) Htype. rewrite Htype in Hlimit.
  destruct (o_limit_price o); [eauto | discriminate].
Qed.

(** * Order lifecycle: [cancel_order] *)

Lemma is_terminal_true (r : OrderResult) :
  is_terminal r = true <-> terminal_status (status r).
Proof.
  unfold is_terminal, terminal_status.
  destruct (status r); intuition congruence.
Qed.

Lemma is_terminal_false (r : OrderResult) :
  is_terminal r = false <-> non_terminal_status (status r).
Proof.
  unfold is_terminal, non_terminal_status.
  destruct (status r); intuition congruence.
Qed.

Lemma cancel_order_unknown (oid : string) (b : MockBroker) :
  _orders b !! oid = None -> cancel_order oid b = Returns false b.
Proof.
  intros Hnone. unfold cancel_order. unfold_monad. now rewrite Hnone.
Qed.

Lemma cancel_order_terminal (oid : string) (b : MockBroker) (order : OrderResult) :
  _orders b !! oid = Some order -> is_terminal order = true ->
  cancel_order oid b = Returns false b.
Proof.
  intros Hsome Hterm. unfold cancel_order. unfold_monad.
  now rewrite Hsome, Hterm.
Qed.

Lemma cancel_order_open (oid : string) (b : MockBroker) (order : OrderResult) :
  _orders b !! oid = Some order -> is_terminal order = false ->
  cancel_order oid b =
    Returns true (with_orders (<[oid := set_status CANCELLED order]> (_orders b)) b).
Proof.
  intros Hsome Hterm. unfold cancel_order. unfold_monad.
  now rewrite Hsome, Hterm.
Qed.

(** C9: cancelling an order in a non-terminal status (PENDING, SUBMITTED,
    PARTIAL) returns true and leaves the stored order CANCELLED; cancelling
    an unknown id, or an order in a terminal status (FILLED, CANCELLED,
    REJECTED, EXPIRED), returns false and leaves the broker as it was. *)
Theorem cancel_order_outcome (oid : string) (b : MockBroker) :
  (forall order, get_order oid b = Some order -> non_terminal_status (status order) ->
     exists b', cancel_order oid b = Returns true b'
                /\ status <$> get_order oid b' = Some CANCELLED)
  /\ (get_order oid b = None -> cancel_order oid b = Returns false b)
  /\ (forall order, get_order oid b = Some order -> terminal_status (status order) ->
       cancel_order oid b = Returns false b).
Proof.
  unfold get_order. repeat split.
  - intros order Hsome Hopen. apply is_terminal_false in Hopen.
    rewrite (cancel_order_open _ _ _ Hsome Hopen).
    eexists; split; [reflexivity|].
    cbn. now rewrite lookup_insert_eq.
  - apply cancel_order_unknown.
  - intros order Hsome Hterm. apply is_terminal_true in Hterm.
    eauto using cancel_order_terminal.
Qed.

Lemma cancel_order_outcome_witness :
  (exists b', cancel_order "order-1" Scenario.book_pending = Returns true b'
              /\ status <$> get_order "order-1" b' = Some CANCELLED)
  /\ cancel_order "order-9" Scenario.book_pending = Returns false Scenario.book_pending
  /\ cancel_order "order-2" Scenario.book_filled = Returns false Scenario.book_filled.
Proof.
  split; [|split].
  - destruct (cancel_order_outcome "order-1" Scenario.book_pending) as (Hopen & _ & _).
    eapply Hopen; [vm_compute; reflexivity | left; reflexivity].
  - destruct (cancel_order_outcome "order-9" Scenario.book_pending) as (_ & Hunknown & _).
    apply Hunknown. vm_compute. reflexivity.
  - destruct (cancel_order_outcome "order-2" Scenario.book_filled) as (_ & _ & Hterm).
    eapply Hterm; [vm_compute; reflexivity | left; reflexivity].
Defined.

(** C10: a successful [cancel_order] changes the status field of the
    targeted order and nothing else: cash, margin, positions, prices, the
    configuration and every other stored order are as before, and so are the
    other fields of the cancelled order (so the fill of a PARTIAL order stays
    in cash and positions). *)
Theorem cancel_order_frame (oid : string) (b b' : MockBroker) :
  cancel_order oid b = Returns true b' ->
  _initial_cash b' = _initial_cash b
  /\ _cash b' = _cash b
  /\ _margin_requirement b' = _margin_requirement b
  /\ _margin_used b' = _margin_used b
  /\ _slippage b' = _slippage b
  /\ _max_slippage b' = _max_slippage b
  /\ _positions b' = _positions b
  /\ _prices b' = _prices b
  /\ (forall other, other <> oid -> _orders b' !! other = _orders b !! other)
  /\ exists order order',
       _orders b !! oid = Some order /\ _orders b' !! oid = Some order'
       /\ status order' = CANCELLED
       /\ order_id order' = order_id order
       /\ client_order_id order' = client_order_id order
       /\ r_ticker order' = r_ticker order
       /\ r_side order' = r_side order
       /\ quantity_requested order' = quantity_requested order
       /\ quantity_filled order' = quantity_filled order
       /\ average_price order' = average_price order
       /\ message order' = message order
       /\ submitted_at order' = submitted_at order
       /\ filled_at order' = filled_at order.
Proof.
  intros Hcancel.
  destruct (_orders b !! oid) as [order|] eqn:Hsome.
  2: { rewrite (cancel_order_unknown _ _ Hsome) in Hcancel. discriminate. }
  destruct (is_terminal order) eqn:Hterm.
  { rewrite (cancel_order_terminal _ _ _ Hsome Hterm) in Hcancel. discriminate. }
  rewrite (cancel_order_open _ _ _ Hsome Hterm) in Hcancel.
  injection Hcancel as <-. cbn.
  repeat (split; [reflexivity|]).
  split.
  - intros other Hne. now rewrite lookup_insert_ne.
  - exists order, (set_status CANCELLED order).
    rewrite lookup_insert_eq. cbn. repeat split; reflexivity.
Qed.

Lemma cancel_order_frame_witness :
  let b := Scenario.book_partial in
  let b' := Scenario.after (cancel_order "order-3") b in
  _cash b' = _cash b /\ _positions b' = _positions b
  /\ quantity_filled <$> _orders b' !! "order-3" = Some 1000%Z
  /\ status <$> _orders b !! "order-3" = Some PARTIAL
  /\ status <$> _orders b' !! "order-3" = Some CANCELLED.
Proof.
  intros b b'.
  assert (Hrun : cancel_order "order-3" b = Returns true b') by (vm_compute; reflexivity).
  destruct (cancel_order_frame "order-3" b b' Hrun)
    as (_ & Hcash & _ & _ & _ & _ & Hpos & _ & _ & _).
  split; [exact Hcash|]. split; [exact Hpos|].
  vm_compute. repeat split; reflexivity.
Defined.

(** * Limit orders *)

Lemma gtb_lt (x y : Q) : Py.gtb x y = true <-> y < x.
Proof.
  unfold Py.gtb, Py.ltb. rewrite negb_true_iff.
  destruct (Qle_bool x y) eqn:E.
  - apply Qle_bool_iff in E. split; [discriminate | intros H; exfalso; lra].
  - split; [intros _ | reflexivity].
    apply Qnot_le_lt. intros H. apply Qle_bool_iff in H. congruence.
Qed.

Lemma gtb_le (x y : Q) : Py.gtb x y = false <-> x <= y.
Proof.
  destruct (Py.gtb x y) eqn:E.
  - apply gtb_lt in E. split; [discriminate | intros H; exfalso; lra].
  - split; [intros _ | reflexivity].
    apply Qnot_lt_le. intros H. apply gtb_lt in H. congruence.
Qed.


Lemma ltb_le (x y : Q) : Py.ltb x y = false <-> y <= x.
Proof. apply (gtb_le y x). Qed.







(** * The long-buy primitive *)

Lemma long_buy_unclamped ticker qty price b :
  Py.gtb (Py.float qty * price) (_cash b) = false ->
  _execute_long_buy ticker qty price b = Returns qty (bought ticker qty price b).
Proof.
  intros Hfits.
  unfold _execute_long_buy, _get_or_create_position, store_position, bought,
    position_or_new.
  unfold_monad. rewrite Hfits.
  destruct (_positions b !! ticker) as [position|] eqn:Hpos; cbn; [reflexivity|].
  unfold with_positions, with_cash; cbn. now rewrite insert_insert_eq.
Qed.

Lemma long_buy_clamped ticker qty price b :
  Py.gtb (Py.float qty * price) (_cash b) = true ->
  long_buy_max_qty price b <> 0%Z ->
  _execute_long_buy ticker qty price b =
    Returns (long_buy_max_qty price b) (bought ticker (long_buy_max_qty price b) price b).
Proof.
  intros Hexceeds Hmax.
  unfold _execute_long_buy, _get_or_create_position, store_position, bought,
    position_or_new.
  unfold_monad. rewrite Hexceeds.
  fold (long_buy_max_qty price b).
  destruct (Z.eqb_spec (long_buy_max_qty price b) 0) as [|_]; [contradiction|].
  destruct (_positions b !! ticker) as [position|] eqn:Hpos; cbn; [reflexivity|].
  unfold with_positions, with_cash; cbn. now rewrite insert_insert_eq.
Qed.

Lemma long_buy_insufficient ticker qty price b :
  Py.gtb (Py.float qty * price) (_cash b) = true ->
  long_buy_max_qty price b = 0%Z ->
  _execute_long_buy ticker qty price b =
    Raises (InsufficientFundsError
              (InsufficientCash ticker (Py.float qty * price) (_cash b))) b.
Proof.
  intros Hexceeds Hmax.
  unfold _execute_long_buy. unfold_monad. rewrite Hexceeds.
  fold (long_buy_max_qty price b). now rewrite Hmax.
Qed.









Lemma determine_exec_price_through env order current_price b exec_price b' :
  determine_exec_price env order current_price b = Returns (inr exec_price) b' -> b' = b.
Proof.
  unfold determine_exec_price, _create_pending_result, store_order. unfold_monad.
  destruct (o_order_type order).
  - destruct (Py.gtb (_max_slippage b) 0); [|congruence].
    destruct (Py.div _ _); [|discriminate]. cbv beta iota.
    destruct (Py.gtb _ _); [discriminate|congruence].
  - destruct (o_limit_price order); [|discriminate].
    destruct (_ && _); [discriminate|].
    destruct (_ && _); [discriminate|congruence].
  - congruence.
  - congruence.
Qed.




(** * Weighted average cost *)

Lemma inject_Z_pos (z : Z) : (0 < z)%Z -> 0 < inject_Z z.
Proof. intros H. unfold Qlt. cbn. lia. Qed.






(** * Exceptions leaving [submit_order] *)

Lemma long_sell_returns ticker qty price b :
  exists filled b', _execute_long_sell ticker qty price b = Returns filled b'.
Proof.
  unfold _execute_long_sell, store_position, del_position. unfold_monad.
  destruct (_positions b !! ticker) as [position|]; [|eauto].
  destruct (negb _); [eauto|].
  destruct (_ <=? _)%Z; [eauto|].
  cbv beta iota. destruct (_ =? _)%Z; eauto.
Qed.

Lemma short_cover_returns ticker qty price b :
  exists filled b', _execute_short_cover ticker qty price b = Returns filled b'.
Proof.
  unfold _execute_short_cover, store_position, del_position. unfold_monad.
  destruct (_positions b !! ticker) as [position|]; [|eauto].
  destruct (negb _); [eauto|].
  destruct (_ <=? _)%Z; [eauto|].
  cbv beta iota. destruct (_ =? _)%Z; eauto.
Qed.

Lemma long_buy_raises ticker qty price b e b' :
  _execute_long_buy ticker qty price b = Raises e b' ->
  b' = b /\ exists msg, e = InsufficientFundsError msg.
Proof.
  destruct (Py.gtb (Py.float qty * price) (_cash b)) eqn:Hcost.
  - destruct (Z.eq_dec (long_buy_max_qty price b) 0) as [Hz|Hnz].
    + rewrite long_buy_insufficient by assumption. intros [= <- <-]. eauto.
    + rewrite long_buy_clamped by assumption. discriminate.
  - rewrite long_buy_unclamped by assumption. discriminate.
Qed.

Lemma short_open_raises ticker qty price b e b' :
  _execute_short_open ticker qty price b = Raises e b' ->
  b' = b /\ (e = ZeroDivisionError \/ exists msg, e = InsufficientFundsError msg).
Proof.
  unfold _execute_short_open, _get_or_create_position, store_position. unfold_monad.
  destruct (Py.gtb _ _).
  - destruct (Py.div _ _); [|intros [= <- <-]; auto]. cbv beta iota.
    destruct (_ =? _)%Z; [intros [= <- <-]; eauto|].
    destruct (_positions b !! ticker); discriminate.
  - destruct (_positions b !! ticker); discriminate.
Qed.

Lemma execute_primitive_raises order price b e b' :
  execute_primitive order price b = Raises e b' ->
  b' = b /\ (e = ZeroDivisionError \/ exists msg, e = InsufficientFundsError msg).
Proof.
  unfold execute_primitive.
  destruct (o_position_side order), (o_side order); intros Hrun.
  - apply long_buy_raises in Hrun as [-> ?]. auto.
  - destruct (long_sell_returns (o_ticker order) (o_quantity order) price b)
      as (? & ? & Hret). congruence.
  - destruct (short_cover_returns (o_ticker order) (o_quantity order) price b)
      as (? & ? & Hret). congruence.
  - now apply short_open_raises in Hrun.
Qed.

Lemma determine_exec_price_raises env order current_price b e b' :
  determine_exec_price env order current_price b = Raises e b' ->
  b' = b /\ e = ZeroDivisionError /\ current_price == 0.
Proof.
  unfold determine_exec_price, _create_pending_result, store_order. unfold_monad.
  destruct (o_order_type order); try discriminate.
  - destruct (Py.gtb (_max_slippage b) 0); [|discriminate].
    unfold Py.div, Py.is_zero.
    destruct (Qeq_bool current_price 0) eqn:Hzero.
    + intros [= <- <-]. apply Qeq_bool_iff in Hzero. auto.
    + cbv beta iota. destruct (Py.gtb _ _); discriminate.
  - destruct (o_limit_price order); [|discriminate].
    destruct (_ && _); [discriminate|].
    destruct (_ && _); discriminate.
Qed.

(** The only exception that leaves [submit_order] is [ZeroDivisionError],
    and it leaves the ledger as it was. *)
Lemma submit_order_raises env order b e b' :
  submit_order env order b = Raises e b' -> e = ZeroDivisionError /\ b' = b.
Proof.
  unfold submit_order, execute_and_record, store_order. unfold_monad.
  destruct (get_current_price (o_ticker order) b) as [current_price|]; [|discriminate].
  destruct (determine_exec_price env order current_price b)
    as [[early|exec_price] b1|e1 b1] eqn:Hstage.
  - discriminate.
  - apply determine_exec_price_through in Hstage as ->.
    destruct (execute_primitive order exec_price b) as [filled b2|e2 b2] eqn:Hexec.
    + discriminate.
    + apply execute_primitive_raises in Hexec as [-> [->|[msg ->]]].
      * now intros [= <- <-].
      * discriminate.
  - apply determine_exec_price_raises in Hstage as (-> & -> & _).
    now intros [= <- <-].
Qed.

Lemma market_order_zero_price env order b current_price :
  o_order_type order = MARKET ->
  get_current_price (o_ticker order) b = Some current_price ->
  current_price == 0 -> 0 < _max_slippage b ->
  submit_order env order b = Raises ZeroDivisionError b.
Proof.
  intros Htype Hprice Hzero Hguard.
  unfold submit_order, determine_exec_price. unfold_monad.
  rewrite Hprice, Htype. rewrite (proj2 (gtb_lt _ _) Hguard).
  unfold Py.div, Py.is_zero. now rewrite (proj2 (Qeq_bool_iff _ _) Hzero).
Qed.

(** C1: [submit_order] does raise.  With X quoted at 0 and the default
    maximum-slippage guard, a market order for X ends in an uncaught
    [ZeroDivisionError]: no REJECTED result is returned. *)
Theorem submit_order_raises_on_zero_price :
  submit_order (Scenario.env "1") (Scenario.market "X" BUY 1 LONG) Scenario.quoted_zero
  = Raises ZeroDivisionError Scenario.quoted_zero.
Proof.
  apply (market_order_zero_price _ _ _ 0).
  - reflexivity.
  - vm_compute. reflexivity.
  - reflexivity.
  - reflexivity.
Qed.

(** * Recording of results *)

Lemma submit_order_no_price env order b :
  get_current_price (o_ticker order) b = None ->
  submit_order env order b =
    Returns (_create_rejected_result env order (NoPriceAvailable (o_ticker order))) b.
Proof.
  intros Hprice. unfold submit_order. unfold_monad. now rewrite Hprice.
Qed.

(** Every result that is not REJECTED is in the order map when
    [submit_order] returns. *)
Lemma submit_order_records env order b r b' :
  submit_order env order b = Returns r b' ->
  status r <> REJECTED ->
  get_order (order_id r) b' = Some r.
Proof.
  unfold submit_order, execute_and_record, store_order, get_order. unfold_monad.
  destruct (get_current_price (o_ticker order) b) as [current_price|].
  2: { intros [= <- _] H. now destruct H. }
  destruct (determine_exec_price env order current_price b)
    as [[early|exec_price] b1|e1 b1] eqn:Hstage; [| |discriminate].
  - intros [= <- <-] Hst.
    revert Hstage.
    unfold determine_exec_price, _create_pending_result, store_order. unfold_monad.
    destruct (o_order_type order); try discriminate.
    + destruct (Py.gtb (_max_slippage b) 0); [|discriminate].
      destruct (Py.div _ _); [|discriminate]. cbv beta iota.
      destruct (Py.gtb _ _); [|discriminate].
      intros [= <- _]. now destruct Hst.
    + destruct (o_limit_price order); [|intros [= <- _]; now destruct Hst].
      destruct (_ && _); [intros [= <- <-]; cbn; apply lookup_insert_eq|].
      destruct (_ && _); [intros [= <- <-]; cbn; apply lookup_insert_eq|discriminate].
  - destruct (execute_primitive order exec_price b1) as [filled b2|[] b2];
      try discriminate.
    + intros [= <- <-] _. cbn. apply lookup_insert_eq.
    + intros [= <- _] H. now destruct H.
Qed.

(** C2: a result that is returned early is not recorded.  An order for a
    ticker without a price returns a REJECTED result whose id is absent from
    the order map afterwards. *)
Theorem rejected_result_is_not_recorded :
  exists r b',
    submit_order (Scenario.env "8") (Scenario.market "Y" BUY 1 LONG) Scenario.quoted
      = Returns r b'
    /\ status r = REJECTED
    /\ order_id r = "order-8"
    /\ get_order (order_id r) b' = None.
Proof.
  eexists _, _. split.
  - apply submit_order_no_price. vm_compute. reflexivity.
  - vm_compute. auto.
Qed.

(** * Snapshot loading *)

Lemma load_state_without_document fromisoformat file b :
  (forall state, file <> Document state) ->
  load_state fromisoformat file b = Returns false b.
Proof.
  intros Hfile. destruct file; try reflexivity. now destruct (Hfile state).
Qed.

(** [load_state] reports every failure through its result. *)
Lemma load_state_returns fromisoformat file b :
  exists ok b', load_state fromisoformat file b = Returns ok b'.
Proof.
  destruct file; cbn; eauto.
  unfold try_except_Exception. destruct (restore fromisoformat state b); eauto.
Qed.

(** C3: a load that fails on a missing key keeps what it had already
    assigned.  Loading a snapshot that has [initial_cash] and [cash] but no
    [margin_requirement] returns [False], yet both cash fields of the
    ledger have been overwritten. *)
Theorem failed_load_keeps_partial_restore fromisoformat :
  exists b',
    load_state fromisoformat (Document Scenario.truncated_snapshot) Scenario.fresh
      = Returns false b'
    /\ _initial_cash Scenario.fresh = 100000 /\ _cash Scenario.fresh = 100000
    /\ _initial_cash b' = 5000 /\ _cash b' = 7000.
Proof.
  eexists. split; [vm_compute; reflexivity|]. vm_compute. auto.
Qed.

(** * Account equity *)

Lemma get_account_equity (b : MockBroker) :
  equity (get_account b) = _cash b + positions_value (_positions b).
Proof. reflexivity. Qed.

Lemma sum_ext (g1 g2 : string -> Position -> Q) (items : list (string * Position)) :
  (forall ticker pos, (ticker, pos) ∈ items -> g1 ticker pos == g2 ticker pos) ->
  foldr (uncurry (fun ticker pos acc => acc + g1 ticker pos)) 0 items
  == foldr (uncurry (fun ticker pos acc => acc + g2 ticker pos)) 0 items.
Proof.
  induction items as [|[ticker pos] items IH]; intros Hext; cbn -[Qplus].
  - reflexivity.
  - rewrite IH, (Hext ticker pos).
    + reflexivity.
    + apply list_elem_of_here.
    + intros t p Hin. apply Hext. now apply list_elem_of_further.
Qed.

(** Once the positions have been read, and when every held ticker has a
    current price that is not zero, the equity of [get_account] is cash plus
    the position values at the current prices. *)
Lemma equity_after_position_read (b : MockBroker) :
  (forall ticker pos, _positions b !! ticker = Some pos ->
     exists price, get_current_price ticker b = Some price /\ ~ price == 0) ->
  let b' := final_state (get_positions b) in
  equity (get_account b') == _cash b' + positions_value_at_current_prices b'.
Proof.
  intros Hpriced b'. rewrite get_account_equity.
  apply Qplus_comp; [reflexivity|].
  unfold positions_value, positions_value_at_current_prices.
  rewrite !map_fold_foldr. apply sum_ext.
  intros ticker pos' Hin. apply elem_of_map_to_list in Hin.
  subst b'. unfold get_positions in Hin. unfold_monad. cbn in Hin.
  rewrite map_lookup_imap in Hin.
  destruct (_positions b !! ticker) as [pos|] eqn:Hpos; [|discriminate].
  cbn in Hin. injection Hin as <-.
  destruct (Hpriced ticker pos Hpos) as (price & Hprice & Hnz).
  assert (Hsame : get_current_price ticker
                    (final_state (get_positions b)) = Some price) by exact Hprice.
  rewrite Hsame. unfold refresh. rewrite Hprice.
  unfold Py.is_zero. destruct (Qeq_bool price 0) eqn:Hz.
  - apply Qeq_bool_iff in Hz. contradiction.
  - reflexivity.
Qed.

(** C4: the equity of [get_account] uses the market values stored by the
    last position read.  Right after the fill of a buy of 500 X at 100 out
    of 100000 in cash, the reported equity is 50000, while cash plus the
    position values at current prices is 100000 (which is also what
    [get_account] reports once the positions have been read). *)
Theorem account_equity_stale_after_fill :
  let b := Scenario.book_filled in
  equity (get_account b) == 50000
  /\ _cash b + positions_value_at_current_prices b == 100000
  /\ equity (get_account (final_state (get_positions b))) == 100000.
Proof.
  vm_compute. auto.
Qed.

(** * Flat positions *)

(** A long buy that fits the cash and equals the size of a short position
    leaves that position in the map with quantity zero. *)
Lemma long_buy_flattens_short ticker qty price b position :
  _positions b !! ticker = Some position ->
  quantity position = (- qty)%Z ->
  Py.float qty * price <= _cash b ->
  exists b' position',
    _execute_long_buy ticker qty price b = Returns qty b'
    /\ _positions b' !! ticker = Some position'
    /\ quantity position' = 0%Z.
Proof.
  intros Hsome Hqty Hfits.
  rewrite long_buy_unclamped by (now apply gtb_le).
  eexists _, _. split; [reflexivity|].
  unfold bought, position_or_new. rewrite Hsome.
  cbn -[Qdiv Qmult Qplus inject_Z Z.ltb].
  rewrite lookup_insert_eq. split; [reflexivity|].
  cbn -[Qdiv Qmult Qplus inject_Z Z.ltb]. lia.
Qed.

(** The closing primitive for long positions does remove a position that
    it brings to zero. *)
Lemma long_sell_removes ticker qty price b position :
  _positions b !! ticker = Some position ->
  side position = LONG ->
  (0 < quantity position <= qty)%Z ->
  exists b',
    _execute_long_sell ticker qty price b = Returns (quantity position) b'
    /\ _positions b' !! ticker = None.
Proof.
  intros Hsome Hside Hqty.
  unfold _execute_long_sell, store_position, del_position. unfold_monad.
  rewrite Hsome, Hside.
  rewrite bool_decide_eq_true_2 by reflexivity. cbn [negb].
  rewrite Z.min_r by lia.
  destruct (Z.leb_spec (quantity position) 0); [lia|].
  cbn -[Qdiv Qmult Qplus inject_Z Z.eqb Z.sub].
  rewrite Z.sub_diag. cbn -[Qdiv Qmult Qplus inject_Z].
  eexists. split; [reflexivity|]. cbn -[Qdiv Qmult Qplus inject_Z].
  apply lookup_delete_eq.
Qed.

(** C5: the long-buy primitive does not remove a position that it brings
    to zero.  With a short of 5 X open, a FILLED long buy of 5 X leaves the
    entry for X in the position map with quantity 0. *)
Theorem flat_position_stays_in_ledger :
  (exists r b', submit_order (Scenario.env "5") (Scenario.market "X" BUY 5 LONG)
                  Scenario.book_short = Returns r b'
                /\ status r = FILLED /\ b' = Scenario.book_short_then_long)
  /\ no_flat_position Scenario.book_short
  /\ (exists position,
        _positions Scenario.book_short_then_long !! "X" = Some position
        /\ quantity position = 0%Z /\ side position = SHORT)
  /\ ~ no_flat_position Scenario.book_short_then_long.
Proof.
  assert (Hflat : exists position,
             _positions Scenario.book_short_then_long !! "X" = Some position
             /\ quantity position = 0%Z /\ side position = SHORT).
  { eexists. split; [vm_compute; reflexivity|]. split; reflexivity. }
  split; [|split; [|split]].
  - eexists _, _. split; [vm_compute; reflexivity|]. split; reflexivity.
  - intros ticker position Hlook.
    destruct (decide (ticker = "X")) as [->|Hne].
    + vm_compute in Hlook. injection Hlook as <-. discriminate.
    + assert (_positions Scenario.book_short = {["X" := mkPosition "X" (-5) SHORT (500 # 5) 0 0 0 0]}) as Hmap
        by (vm_compute; reflexivity).
      rewrite Hmap in Hlook. rewrite lookup_singleton_ne in Hlook by congruence. discriminate.
  - exact Hflat.
  - intros Hinv. destruct Hflat as (position & Hlook & Hq & _).
    exact (Hinv _ _ Hlook Hq).
Qed.

(** * Conservation of funds *)









(** * What [submit_order] leaves alone *)

Lemma same_settings_refl b : same_settings b b.
Proof. repeat split. Qed.

Lemma execute_primitive_frame order price b filled b' :
  execute_primitive order price b = Returns filled b' ->
  same_settings b b' /\ _orders b' = _orders b.
Proof.
  unfold execute_primitive.
  destruct (o_position_side order), (o_side order).
  - destruct (Py.gtb (Py.float (o_quantity order) * price) (_cash b)) eqn:Hcost.
    + destruct (Z.eq_dec (long_buy_max_qty price b) 0) as [Hz|Hnz].
      * rewrite long_buy_insufficient by assumption. discriminate.
      * rewrite long_buy_clamped by assumption. intros [= <- <-]. repeat split.
    + rewrite long_buy_unclamped by assumption. intros [= <- <-]. repeat split.
  - unfold _execute_long_sell, store_position, del_position. unfold_monad.
    destruct (_positions b !! _); [|intros [= <- <-]; repeat split].
    destruct (negb _); [intros [= <- <-]; repeat split|].
    destruct (_ <=? _)%Z; [intros [= <- <-]; repeat split|].
    cbv beta iota. destruct (_ =? _)%Z; intros [= <- <-]; repeat split.
  - unfold _execute_short_cover, store_position, del_position. unfold_monad.
    destruct (_positions b !! _); [|intros [= <- <-]; repeat split].
    destruct (negb _); [intros [= <- <-]; repeat split|].
    destruct (_ <=? _)%Z; [intros [= <- <-]; repeat split|].
    cbv beta iota. destruct (_ =? _)%Z; intros [= <- <-]; repeat split.
  - unfold _execute_short_open, _get_or_create_position, store_position. unfold_monad.
    destruct (Py.gtb _ _).
    + destruct (Py.div _ _); [|discriminate]. cbv beta iota.
      destruct (_ =? _)%Z; [discriminate|].
      destruct (_positions b !! _); intros [= <- <-]; repeat split.
    + destruct (_positions b !! _); intros [= <- <-]; repeat split.
Qed.

(** How a call of [submit_order] that returns got there: an early return
    that stored nothing, a PENDING result that was stored, or the
    execution at some price. *)
Lemma submit_order_cases env order b r b' :
  submit_order env order b = Returns r b' ->
  (b' = b /\ exists msg, r = _create_rejected_result env order msg)
  \/ (b' = with_orders (<[order_id r := r]> (_orders b)) b
      /\ status r = PENDING /\ quantity_filled r = 0%Z /\ average_price r = None
      /\ order_id r = uuid4 env /\ client_order_id r = o_client_order_id order
      /\ r_ticker r = o_ticker order /\ r_side r = o_side order
      /\ quantity_requested r = o_quantity order /\ submitted_at r = now env)
  \/ exists exec_price, execute_and_record env order exec_price b = Returns r b'.
Proof.
  unfold submit_order. unfold_monad.
  destruct (get_current_price (o_ticker order) b) as [current_price|].
  2: { intros [= <- <-]. left. eauto. }
  destruct (determine_exec_price env order current_price b)
    as [[early|exec_price] b1|e1 b1] eqn:Hstage; [| |discriminate].
  - intros [= <- <-]. revert Hstage.
    unfold determine_exec_price, _create_pending_result, store_order. unfold_monad.
    destruct (o_order_type order); try discriminate.
    + destruct (Py.gtb (_max_slippage b) 0); [|discriminate].
      destruct (Py.div _ _); [|discriminate]. cbv beta iota.
      destruct (Py.gtb _ _); [|discriminate].
      intros [= <- <-]. left. eauto.
    + destruct (o_limit_price order); [|intros [= <- <-]; left; eauto].
      destruct (_ && _); [intros [= <- <-]; right; left; cbn; auto 12|].
      destruct (_ && _); [intros [= <- <-]; right; left; cbn; auto 12|discriminate].
  - apply determine_exec_price_through in Hstage as ->. eauto.
Qed.

(** What the execution stage returns. *)
Lemma execute_and_record_cases env order exec_price b r b' :
  execute_and_record env order exec_price b = Returns r b' ->
  (b' = b /\ exists msg, r = _create_rejected_result env order msg)
  \/ exists filled b1,
       execute_primitive order exec_price b = Returns filled b1
       /\ b' = with_orders (<[order_id r := r]> (_orders b1)) b1
       /\ ((filled = 0%Z /\ r = _create_rejected_result env order NoQuantityFilled)
           \/ (filled <> 0%Z /\ (filled < o_quantity order)%Z
               /\ r = _create_partial_result env order filled exec_price)
           \/ (filled <> 0%Z /\ (o_quantity order <= filled)%Z
               /\ r = _create_filled_result env order filled exec_price)).
Proof.
  unfold execute_and_record, store_order. unfold_monad.
  destruct (execute_primitive order exec_price b) as [filled b1|e b1] eqn:Hexec.
  - intros Hrun. right. exists filled, b1. split; [reflexivity|].
    destruct (Z.eqb_spec filled 0) as [->|Hnz].
    + injection Hrun as <- <-. auto.
    + destruct (Z.ltb_spec filled (o_quantity order)); injection Hrun as <- <-; auto 8.
  - apply execute_primitive_raises in Hexec as [-> [->|[msg ->]]]; [discriminate|].
    intros [= <- <-]. left. eauto.
Qed.

(** X2: [submit_order] never touches the settings of the engine or the
    price cache, and the only entry of the order map that it can write is
    the one of the id drawn for its result. *)
Theorem submit_order_frame env order b r b' :
  submit_order env order b = Returns r b' ->
  same_settings b b'
  /\ forall oid, oid <> uuid4 env -> _orders b' !! oid = _orders b !! oid.
Proof.
  intros Hrun.
  apply submit_order_cases in Hrun
    as [[-> _] | [(-> & _ & _ & _ & Hid & _) | [exec_price Hrun]]].
  - split; [apply same_settings_refl | reflexivity].
  - split; [repeat split|]. intros oid Hne. cbn.
    rewrite lookup_insert_ne by congruence. reflexivity.
  - apply execute_and_record_cases in Hrun
      as [[-> _] | (filled & b1 & Hexec & -> & Hres)].
    + split; [apply same_settings_refl | reflexivity].
    + apply execute_primitive_frame in Hexec as [Hset Hord].
      split; [exact Hset|]. intros oid Hne. cbn.
      assert (Hid : order_id r = uuid4 env).
      { destruct Hres as [[_ ->] | [(_ & _ & ->) | (_ & _ & ->)]]; reflexivity. }
      rewrite lookup_insert_ne by congruence. now rewrite Hord.
Qed.

Lemma submit_order_frame_witness :
  same_settings Scenario.quoted Scenario.book_filled
  /\ forall oid, oid <> "order-2" ->
       _orders Scenario.book_filled !! oid = _orders Scenario.quoted !! oid.
Proof.
  apply (submit_order_frame (Scenario.env "2") (Scenario.market "X" BUY 500 LONG)
           Scenario.quoted
           (_create_filled_result (Scenario.env "2")
              (Scenario.market "X" BUY 500 LONG) 500 100)).
  vm_compute. reflexivity.
Defined.

Lemma execute_primitive_zero order price b b' :
  (0 < o_quantity order)%Z ->
  execute_primitive order price b = Returns 0%Z b' -> b' = b.
Proof.
  intros Hq. unfold execute_primitive.
  destruct (o_position_side order), (o_side order).
  - destruct (Py.gtb (Py.float (o_quantity order) * price) (_cash b)) eqn:Hcost.
    + destruct (Z.eq_dec (long_buy_max_qty price b) 0) as [Hz|Hnz].
      * rewrite long_buy_insufficient by assumption. discriminate.
      * rewrite long_buy_clamped by assumption. intros [= Hm _]. contradiction.
    + rewrite long_buy_unclamped by assumption. intros [= Hm _]. lia.
  - unfold _execute_long_sell, store_position, del_position. unfold_monad.
    destruct (_positions b !! _); [|congruence].
    destruct (negb _); [congruence|].
    destruct (Z.leb_spec (Z.min (o_quantity order) (quantity p)) 0); [congruence|].
    cbv beta iota. destruct (_ =? _)%Z; intros [= Hm _]; lia.
  - unfold _execute_short_cover, store_position, del_position. unfold_monad.
    destruct (_positions b !! _); [|congruence].
    destruct (negb _); [congruence|].
    destruct (Z.leb_spec (Z.min (o_quantity order) (Z.abs (quantity p))) 0); [congruence|].
    cbv beta iota. destruct (_ =? _)%Z; intros [= Hm _]; lia.
  - unfold _execute_short_open, _get_or_create_position, store_position. unfold_monad.
    destruct (Py.gtb _ _).
    + destruct (Py.div _ _); [|discriminate]. cbv beta iota.
      destruct (Z.eqb_spec (Py.int q) 0); [discriminate|].
      destruct (_positions b !! _); intros [= Hm _]; contradiction.
    + destruct (_positions b !! _); intros [= Hm _]; lia.
Qed.

(** X3: a REJECTED result of a validated order means that cash, margin in
    use and positions are exactly as before the call. *)
Theorem rejected_order_keeps_holdings env order b r b' :
  Order_post_init order = true ->
  submit_order env order b = Returns r b' ->
  status r = REJECTED ->
  same_holdings b b'.
Proof.
  intros Hvalid Hrun Hrej. apply Order_post_init_quantity in Hvalid.
  apply submit_order_cases in Hrun
    as [[-> _] | [(_ & Hst & _) | [exec_price Hrun]]].
  - repeat split.
  - congruence.
  - apply execute_and_record_cases in Hrun
      as [[-> _] | (filled & b1 & Hexec & -> & Hres)].
    + repeat split.
    + destruct Hres as [[-> _] | [(_ & _ & ->) | (_ & _ & ->)]]; try discriminate.
      apply execute_primitive_zero in Hexec as ->; [|assumption]. repeat split.
Qed.

Lemma rejected_order_keeps_holdings_witness :
  same_holdings Scenario.quoted
    (Scenario.after (submit_order (Scenario.env "9") (Scenario.market "X" SELL 5 LONG))
       Scenario.quoted).
Proof.
  apply (rejected_order_keeps_holdings (Scenario.env "9")
           (Scenario.market "X" SELL 5 LONG) Scenario.quoted
           (_create_rejected_result (Scenario.env "9")
              (Scenario.market "X" SELL 5 LONG) NoQuantityFilled)).
  - reflexivity.
  - vm_compute. reflexivity.
  - reflexivity.
Defined.

(** X4: a result of [submit_order] carries the id drawn for it and echoes
    the order; its status is REJECTED, PENDING, PARTIAL or FILLED; the
    filled quantity is zero and there is no fill price exactly for REJECTED
    and PENDING, and a PARTIAL result filled less than was requested. *)
Theorem submit_order_result_shape env order b r b' :
  submit_order env order b = Returns r b' ->
  (order_id r = uuid4 env /\ client_order_id r = o_client_order_id order
   /\ r_ticker r = o_ticker order /\ r_side r = o_side order
   /\ quantity_requested r = o_quantity order /\ submitted_at r = now env)
  /\ ((status r = REJECTED \/ status r = PENDING)
      /\ quantity_filled r = 0%Z /\ average_price r = None
      \/ status r = PARTIAL
         /\ quantity_filled r <> 0%Z /\ (quantity_filled r < quantity_requested r)%Z
         /\ average_price r <> None
      \/ status r = FILLED
         /\ quantity_filled r <> 0%Z /\ (quantity_requested r <= quantity_filled r)%Z
         /\ average_price r <> None).
Proof.
  intros Hrun.
  assert (Hrej : forall msg, r = _create_rejected_result env order msg ->
            (order_id r = uuid4 env /\ client_order_id r = o_client_order_id order
             /\ r_ticker r = o_ticker order /\ r_side r = o_side order
             /\ quantity_requested r = o_quantity order /\ submitted_at r = now env)
            /\ ((status r = REJECTED \/ status r = PENDING)
                /\ quantity_filled r = 0%Z /\ average_price r = None
                \/ status r = PARTIAL
                   /\ quantity_filled r <> 0%Z
                   /\ (quantity_filled r < quantity_requested r)%Z
                   /\ average_price r <> None
                \/ status r = FILLED
                   /\ quantity_filled r <> 0%Z
                   /\ (quantity_requested r <= quantity_filled r)%Z
                   /\ average_price r <> None)).
  { intros msg ->. cbn. auto 10. }
  apply submit_order_cases in Hrun
    as [[_ [msg Hr]] | [(_ & Hst & Hq & Hp & Hecho) | [exec_price Hrun]]].
  - eauto.
  - split; [tauto|]. left. auto.
  - apply execute_and_record_cases in Hrun
      as [[_ [msg Hr]] | (filled & b1 & _ & _ & Hres)]; [eauto|].
    destruct Hres as [[_ Hr] | [(Hnz & Hlt & ->) | (Hnz & Hle & ->)]]; [eauto| |].
    + cbn. split; [auto 10|]. right. left. repeat split; auto; discriminate.
    + cbn. split; [auto 10|]. right. right. repeat split; auto; discriminate.
Qed.

Lemma submit_order_result_shape_witness :
  exists r, Scenario.book_partial
            = Scenario.after (submit_order (Scenario.env "3")
                                (Scenario.market "X" BUY 2000 LONG)) Scenario.quoted
    /\ order_id r = "order-3" /\ status r = PARTIAL
    /\ (quantity_filled r < quantity_requested r)%Z.
Proof.
  exists (_create_partial_result (Scenario.env "3")
            (Scenario.market "X" BUY 2000 LONG) 1000 100).
  destruct (submit_order_result_shape (Scenario.env "3")
              (Scenario.market "X" BUY 2000 LONG) Scenario.quoted
              (_create_partial_result (Scenario.env "3")
                 (Scenario.market "X" BUY 2000 LONG) 1000 100)
              Scenario.book_partial) as [(Hid & _) Hshape].
  { vm_compute. reflexivity. }
  split; [reflexivity|]. split; [exact Hid|].
  destruct Hshape as [([H|H] & _) | [(Hst & _ & Hlt & _) | (H & _)]];
    try discriminate.
  split; [exact Hst | exact Hlt].
Defined.

(** * The slippage guard of market orders *)

Lemma is_zero_true (x : Q) : Py.is_zero x = true <-> x == 0.
Proof. apply Qeq_bool_iff. Qed.

Lemma is_zero_false (x : Q) : Py.is_zero x = false <-> ~ x == 0.
Proof.
  unfold Py.is_zero. destruct (Qeq_bool x 0) eqn:E.
  - apply Qeq_bool_iff in E. split; [discriminate | contradiction].
  - split; [|reflexivity]. intros _ H. apply Qeq_bool_iff in H. congruence.
Qed.




(** A market order at a price that is not zero, without configured
    slippage, is executed at the current price. *)
Lemma market_order_at_price env order b p :
  o_order_type order = MARKET ->
  get_current_price (o_ticker order) b = Some p ->
  ~ p == 0 -> _slippage b == 0 ->
  submit_order env order b = execute_and_record env order p b.
Proof.
  intros Htype Hprice Hp Hs.
  unfold submit_order, determine_exec_price, _apply_slippage. unfold_monad.
  rewrite Hprice, Htype, (proj2 (is_zero_true _) Hs).
  destruct (Py.gtb (_max_slippage b) 0) eqn:Hmax; [|reflexivity].
  unfold Py.div. rewrite (proj2 (is_zero_false p) Hp).
  apply gtb_lt in Hmax.
  rewrite (proj2 (gtb_le _ _)); [reflexivity|].
  assert (H0 : p - p == 0) by ring. rewrite H0. change (Qabs 0) with 0.
  assert (H1 : 0 / p == 0) by (field; exact Hp). lra.
Qed.

(** * Reducing a position *)

Lemma long_sell_held ticker qty price b position :
  _positions b !! ticker = Some position ->
  side position = LONG ->
  (0 < Z.min qty (quantity position))%Z ->
  exists b',
    _execute_long_sell ticker qty price b = Returns (Z.min qty (quantity position)) b'
    /\ _cash b' = _cash b + inject_Z (Z.min qty (quantity position)) * price
    /\ _margin_used b' = _margin_used b
    /\ _orders b' = _orders b
    /\ same_settings b b'
    /\ _positions b' =
         let position' :=
           with_quantity_realized
             (quantity position - Z.min qty (quantity position))
             (realized_pnl position
              + (price - average_cost position)
                * inject_Z (Z.min qty (quantity position))) position in
         if (quantity position' =? 0)%Z
         then delete ticker (_positions b)
         else <[ticker := position']> (_positions b).
Proof.
  intros Hsome Hside Hmin.
  unfold _execute_long_sell, store_position, del_position. unfold_monad.
  rewrite Hsome, Hside. rewrite bool_decide_eq_true_2 by reflexivity. cbn [negb].
  destruct (Z.leb_spec (Z.min qty (quantity position)) 0); [lia|].
  cbv beta iota zeta.
  destruct (_ =? _)%Z eqn:Hzero; eexists; (split; [reflexivity|]);
    cbn -[Qplus Qminus Qmult inject_Z Z.min Z.sub Z.eqb];
    rewrite ?Hzero; repeat split.
  now rewrite delete_insert_eq.
Qed.

Lemma short_cover_held ticker qty price b position :
  _positions b !! ticker = Some position ->
  side position = SHORT ->
  (0 < Z.min qty (Z.abs (quantity position)))%Z ->
  exists b',
    _execute_short_cover ticker qty price b
    = Returns (Z.min qty (Z.abs (quantity position))) b'
    /\ _cash b' = _cash b
                  + (inject_Z (Z.min qty (Z.abs (quantity position))) * price
                     * _margin_requirement b
                     - inject_Z (Z.min qty (Z.abs (quantity position))) * price)
    /\ _margin_used b' = _margin_used b
                         - inject_Z (Z.min qty (Z.abs (quantity position))) * price
                           * _margin_requirement b
    /\ _orders b' = _orders b
    /\ same_settings b b'
    /\ _positions b' =
         let position' :=
           with_quantity_realized
             (quantity position + Z.min qty (Z.abs (quantity position)))
             (realized_pnl position
              + (average_cost position - price)
                * inject_Z (Z.min qty (Z.abs (quantity position)))) position in
         if (quantity position' =? 0)%Z
         then delete ticker (_positions b)
         else <[ticker := position']> (_positions b).
Proof.
  intros Hsome Hside Hmin.
  unfold _execute_short_cover, store_position, del_position. unfold_monad.
  rewrite Hsome, Hside. rewrite bool_decide_eq_true_2 by reflexivity. cbn [negb].
  destruct (Z.leb_spec (Z.min qty (Z.abs (quantity position))) 0); [lia|].
  cbv beta iota zeta.
  destruct (_ =? _)%Z eqn:Hzero; eexists; (split; [reflexivity|]);
    cbn -[Qplus Qminus Qmult inject_Z Z.min Z.add Z.eqb Z.abs];
    rewrite ?Hzero; repeat split.
  now rewrite delete_insert_eq.
Qed.




(** X6: a sell on the long side against a long position of [h > 0] shares
    fills [min(q, h)] shares: FILLED when [q <= h] and PARTIAL otherwise;
    cash grows by the filled quantity times the price, margin is untouched,
    the realised profit grows by (price - average cost) times the filled
    quantity while the average cost stays, and the position is removed
    exactly when [h <= q]. *)
Theorem long_sell_outcome env order price b position :
  Order_post_init order = true ->
  o_position_side order = LONG -> o_side order = SELL ->
  _positions b !! o_ticker order = Some position ->
  side position = LONG -> (0 < quantity position)%Z ->
  let filled := Z.min (o_quantity order) (quantity position) in
  exists r b',
    execute_and_record env order price b = Returns r b'
    /\ quantity_filled r = filled
    /\ status r = (if (o_quantity order <=? quantity position)%Z then FILLED else PARTIAL)
    /\ _cash b' = _cash b + inject_Z filled * price
    /\ _margin_used b' = _margin_used b
    /\ _positions b' !! o_ticker order =
         (if (quantity position <=? o_quantity order)%Z then None
          else Some (with_quantity_realized
                       (quantity position - o_quantity order)
                       (realized_pnl position
                        + (price - average_cost position) * inject_Z (o_quantity order))
                       position))
    /\ forall other, other <> o_ticker order ->
         _positions b' !! other = _positions b !! other.
Proof.
  intros Hvalid Hps Hs Hsome Hside Hheld filled.
  apply Order_post_init_quantity in Hvalid.
  destruct (long_sell_held (o_ticker order) (o_quantity order) price b position
              Hsome Hside) as (b1 & Hrun & Hcash & Hmargin & _ & _ & Hpos); [lia|].
  unfold execute_and_record, execute_primitive, store_order. unfold_monad.
  rewrite Hps, Hs, Hrun. fold filled in Hcash, Hpos |- *.
  destruct (Z.eqb_spec filled 0); [lia|].
  eexists _, _. split; [reflexivity|].
  cbn -[Qplus Qminus Qmult inject_Z Z.min Z.sub Z.eqb Z.leb Z.ltb filled].
  rewrite Hcash, Hmargin, Hpos.
  cbn -[Qplus Qminus Qmult inject_Z Z.min Z.sub Z.eqb Z.leb Z.ltb filled].
  destruct (Z.leb_spec (o_quantity order) (quantity position)) as [Hle|Hgt].
  - assert (Hf : filled = o_quantity order) by (unfold filled; lia).
    destruct (Z.ltb_spec filled (o_quantity order)); [lia|].
    rewrite Hf. split; [reflexivity|]. split; [reflexivity|].
    split; [reflexivity|]. split; [reflexivity|].
    destruct (Z.eqb_spec (quantity position - o_quantity order) 0) as [Hz|Hnz];
      destruct (Z.leb_spec (quantity position) (o_quantity order)); try lia.
    + split; [apply lookup_delete_eq|]. intros other Hne.
      now rewrite lookup_delete_ne.
    + split; [apply lookup_insert_eq|]. intros other Hne.
      now rewrite lookup_insert_ne.
  - assert (Hf : filled = quantity position) by (unfold filled; lia).
    destruct (Z.ltb_spec filled (o_quantity order)); [|lia].
    rewrite Hf. split; [reflexivity|]. split; [reflexivity|].
    split; [reflexivity|]. split; [reflexivity|].
    rewrite Z.sub_diag. cbn [Z.eqb].
    destruct (Z.leb_spec (quantity position) (o_quantity order)); [|lia].
    split; [apply lookup_delete_eq|]. intros other Hne.
    now rewrite lookup_delete_ne.
Qed.
Lemma long_sell_outcome_witness :
  exists r b',
    execute_and_record (Scenario.env "9") (Scenario.market "X" SELL 200 LONG) 120
      Scenario.book_filled = Returns r b'
    /\ quantity_filled r = 200%Z /\ status r = FILLED
    /\ _cash b' == 50000 + 200 * 120
    /\ (quantity <$> _positions b' !! "X") = Some 300%Z.
Proof.
  destruct (long_sell_outcome (Scenario.env "9") (Scenario.market "X" SELL 200 LONG)
              120 Scenario.book_filled
              (mkPosition "X" 500 LONG (50000 # 500) 0 0 0 0))
    as (r & b' & Hrun & Hq & Hst & Hcash & _ & Hpos & _);
    [reflexivity | reflexivity | reflexivity | vm_compute; reflexivity
    | reflexivity | reflexivity |].
  exists r, b'. split; [exact Hrun|]. split; [exact Hq|]. split; [exact Hst|].
  split; [rewrite Hcash; vm_compute; reflexivity|].
  change (o_ticker (Scenario.market "X" SELL 200 LONG)) with "X" in Hpos.
  rewrite Hpos. reflexivity.
Defined.

(** * Opening and covering a short *)





(** * Round trips *)





(** * Cancelling twice *)

(** X12: an order can be cancelled once: after a successful [cancel_order],
    cancelling the same id again returns false and changes nothing. *)
Theorem cancel_order_once (oid : string) (b b' : MockBroker) :
  cancel_order oid b = Returns true b' ->
  cancel_order oid b' = Returns false b'.
Proof.
  intros Hcancel.
  destruct (_orders b !! oid) as [order|] eqn:Hsome.
  2: { rewrite (cancel_order_unknown _ _ Hsome) in Hcancel. discriminate. }
  destruct (is_terminal order) eqn:Hterm.
  { rewrite (cancel_order_terminal _ _ _ Hsome Hterm) in Hcancel. discriminate. }
  rewrite (cancel_order_open _ _ _ Hsome Hterm) in Hcancel.
  injection Hcancel as <-.
  apply (cancel_order_terminal _ _ (set_status CANCELLED order)).
  - cbn. apply lookup_insert_eq.
  - reflexivity.
Qed.

Lemma cancel_order_once_witness :
  let b' := Scenario.after (cancel_order "order-1") Scenario.book_pending in
  cancel_order "order-1" b' = Returns false b'.
Proof.
  intros b'. apply (cancel_order_once "order-1" Scenario.book_pending b').
  vm_compute. reflexivity.
Defined.

(** * Reading positions *)

Lemma refresh_basis b ticker position :
  same_basis position (refresh b ticker position).
Proof.
  unfold refresh. destruct (get_current_price ticker b) as [price|].
  - destruct (Py.is_zero price); repeat split.
  - repeat split.
Qed.

Lemma get_positions_run b :
  get_positions b
  = Returns (map_imap (fun ticker position => Some (refresh b ticker position))
               (_positions b))
      (with_positions
         (map_imap (fun ticker position => Some (refresh b ticker position))
            (_positions b)) b).
Proof. reflexivity. Qed.

Lemma lookup_refreshed b ticker :
  map_imap (fun ticker position => Some (refresh b ticker position)) (_positions b)
    !! ticker
  = refresh b ticker <$> _positions b !! ticker.
Proof.
  rewrite map_lookup_imap. destruct (_positions b !! ticker); reflexivity.
Qed.

Lemma refresh_refresh b b' ticker position :
  (forall t, get_current_price t b' = get_current_price t b) ->
  refresh b' ticker (refresh b ticker position) = refresh b ticker position.
Proof.
  intros Hsame. unfold refresh. rewrite Hsame.
  destruct (get_current_price ticker b) as [price|]; [|reflexivity].
  destruct (Py.is_zero price); reflexivity.
Qed.

(** X13: [get_positions] returns the position map it leaves behind; in it
    every position has kept its ticker, quantity, side, average cost and
    realised profit, and a position whose ticker has a current price other
    than zero has that price, a market value of its size times the price,
    and the unrealised profit of its side.  Cash, margin, orders and
    settings are not touched, and reading again changes nothing more. *)
Theorem get_positions_refreshes b :
  exists positions b',
    get_positions b = Returns positions b'
    /\ _positions b' = positions
    /\ same_settings b b'
    /\ _cash b' = _cash b /\ _margin_used b' = _margin_used b
    /\ _orders b' = _orders b
    /\ (forall ticker,
          match _positions b !! ticker, positions !! ticker with
          | Some position, Some position' =>
              same_basis position position'
              /\ forall price,
                   get_current_price ticker b = Some price -> ~ price == 0 ->
                   current_price position' = price
                   /\ market_value position'
                      = inject_Z (Z.abs (quantity position)) * price
                   /\ unrealized_pnl position'
                      = match side position with
                        | LONG => (price - average_cost position)
                                  * inject_Z (quantity position)
                        | SHORT => (average_cost position - price)
                                   * inject_Z (Z.abs (quantity position))
                        end
          | None, None => True
          | _, _ => False
          end)
    /\ get_positions b' = Returns positions b'.
Proof.
  eexists _, _. split; [apply get_positions_run|].
  cbn [_positions with_positions _cash _margin_used _orders].
  split; [reflexivity|]. split; [repeat split|].
  split; [reflexivity|]. split; [reflexivity|]. split; [reflexivity|].
  split.
  - intros ticker. rewrite lookup_refreshed.
    destruct (_positions b !! ticker) as [position|]; [|exact I].
    cbn [fmap option_fmap option_map]. split; [apply refresh_basis|].
    intros price Hprice Hnz. unfold refresh. rewrite Hprice.
    rewrite (proj2 (is_zero_false price) Hnz).
    split; [reflexivity|]. split; [reflexivity|].
    cbn. destruct (side position); reflexivity.
  - rewrite get_positions_run.
    cbn [_positions with_positions].
    assert (Hagain :
      map_imap (fun ticker position =>
                  Some (refresh
                          (with_positions
                             (map_imap (fun ticker position =>
                                          Some (refresh b ticker position))
                                (_positions b)) b) ticker position))
        (map_imap (fun ticker position => Some (refresh b ticker position))
           (_positions b))
      = map_imap (fun ticker position => Some (refresh b ticker position))
          (_positions b)).
    { apply map_eq. intros ticker.
      rewrite map_lookup_imap, lookup_refreshed.
      destruct (_positions b !! ticker) as [position|]; [|reflexivity].
      cbn. f_equal. apply refresh_refresh. reflexivity. }
    rewrite Hagain. reflexivity.
Qed.

(** X14: [get_position] returns for a ticker what [get_positions] holds
    for it, and (unlike [get_positions]) leaves the positions of all other
    tickers as they were. *)
Theorem get_position_agrees ticker b :
  exists b',
    get_position ticker b
    = Returns (_positions (final_state (get_positions b)) !! ticker) b'
    /\ _positions b' !! ticker = _positions (final_state (get_positions b)) !! ticker
    /\ (forall other, other <> ticker ->
          _positions b' !! other = _positions b !! other)
    /\ same_settings b b'
    /\ _cash b' = _cash b /\ _margin_used b' = _margin_used b
    /\ _orders b' = _orders b.
Proof.
  rewrite get_positions_run. cbn [final_state _positions with_positions].
  rewrite lookup_refreshed.
  unfold get_position, store_position. unfold_monad.
  destruct (_positions b !! ticker) as [position|] eqn:Hpos.
  - eexists. split; [reflexivity|].
    cbn [_positions with_positions _cash _margin_used _orders].
    split; [apply lookup_insert_eq|].
    split; [intros other Hne; now rewrite lookup_insert_ne|].
    repeat split.
  - eexists. split; [reflexivity|]. rewrite Hpos.
    split; [reflexivity|]. split; [reflexivity|]. repeat split.
Qed.

(** * Saving and loading a snapshot *)

Lemma for_each_steps {A} (body : A -> M unit) (step : A -> MockBroker -> MockBroker)
    (items : list A) :
  (forall x, x ∈ items -> forall s, body x s = Returns tt (step x s)) ->
  forall s, for_each body items s = Returns tt (fold_left (fun s x => step x s) items s).
Proof.
  induction items as [|x items IH]; intros Hbody s; [reflexivity|].
  cbn [for_each fold_left]. unfold_monad.
  rewrite (Hbody x (list_elem_of_here _ _)).
  apply IH. intros y Hy. apply Hbody. now apply list_elem_of_further.
Qed.

Lemma fold_insert_fresh {A V} (key : A -> string) (value : A -> V)
    (items : list A) (acc : gmap string V) (k : string) :
  k ∉ key <$> items ->
  fold_left (fun acc x => <[key x := value x]> acc) items acc !! k = acc !! k.
Proof.
  revert acc. induction items as [|x items IH]; intros acc Hk; [reflexivity|].
  cbn [fold_left]. rewrite fmap_cons in Hk. apply not_elem_of_cons in Hk as [Hne Hk].
  rewrite IH by assumption. now rewrite lookup_insert_ne.
Qed.

Lemma fold_insert_member {A V} (key : A -> string) (value : A -> V)
    (items : list A) (acc : gmap string V) (x : A) :
  NoDup (key <$> items) -> x ∈ items ->
  fold_left (fun acc x => <[key x := value x]> acc) items acc !! key x
  = Some (value x).
Proof.
  revert acc. induction items as [|y items IH]; intros acc Hnodup Hx.
  - now apply elem_of_nil in Hx.
  - rewrite fmap_cons in Hnodup. apply NoDup_cons in Hnodup as [Hfresh Hnodup].
    cbn [fold_left]. apply elem_of_cons in Hx as [->|Hx].
    + rewrite fold_insert_fresh by assumption. apply lookup_insert_eq.
    + now apply IH.
Qed.

(** Inserting the entries of a map one by one, in the order of its list
    of entries, into the empty map. *)
Lemma fold_insert_map_to_list {D V} (value : string -> D -> V) (m : gmap string D) :
  fold_left (fun acc x => <[x.1 := value x.1 x.2]> acc) (map_to_list m) ∅
  = map_imap (fun k d => Some (value k d)) m.
Proof.
  apply map_eq. intros k. rewrite map_lookup_imap.
  destruct (m !! k) as [d|] eqn:Hk; cbn.
  - apply (fold_insert_member fst (fun x => value x.1 x.2) (map_to_list m) ∅ (k, d)).
    + apply NoDup_fst_map_to_list.
    + now apply elem_of_map_to_list.
  - rewrite fold_insert_fresh; [apply lookup_empty|].
    intros Hin. apply list_elem_of_fmap in Hin as ([k' d] & -> & Hin).
    apply elem_of_map_to_list in Hin. cbn in Hk. congruence.
Qed.

Lemma fold_steps_positions {A} (key : A -> string) (value : A -> Position)
    (items : list A) (s : MockBroker) :
  fold_left (fun s x => with_positions (<[key x := value x]> (_positions s)) s) items s
  = with_positions
      (fold_left (fun acc x => <[key x := value x]> acc) items (_positions s)) s.
Proof.
  revert s. induction items as [|x items IH]; intros s; cbn [fold_left].
  - now destruct s.
  - rewrite IH. reflexivity.
Qed.

Lemma fold_steps_orders {A} (key : A -> string) (value : A -> OrderResult)
    (items : list A) (s : MockBroker) :
  fold_left (fun s x => with_orders (<[key x := value x]> (_orders s)) s) items s
  = with_orders
      (fold_left (fun acc x => <[key x := value x]> acc) items (_orders s)) s.
Proof.
  revert s. induction items as [|x items IH]; intros s; cbn [fold_left].
  - now destruct s.
  - rewrite IH. reflexivity.
Qed.

Lemma PositionSide_round_trip (x : PositionSide) :
  PositionSide_of (PositionSide_value x) = mret x.
Proof. destruct x; reflexivity. Qed.

Lemma OrderSide_round_trip (x : OrderSide) :
  OrderSide_of (OrderSide_value x) = mret x.
Proof. destruct x; reflexivity. Qed.

Lemma OrderStatus_round_trip (x : OrderStatus) :
  OrderStatus_of (OrderStatus_value x) = mret x.
Proof. destruct x; reflexivity. Qed.

Lemma load_saved_position ticker p s :
  load_position (ticker, save_position p) s
  = Returns tt
      (with_positions (<[ticker := reloaded_position ticker p]> (_positions s)) s).
Proof.
  unfold load_position, save_position, store_position, subscript. unfold_monad.
  cbn [pd_quantity pd_side pd_average_cost pd_realized_pnl].
  rewrite PositionSide_round_trip. reflexivity.
Qed.

Lemma load_saved_order fromisoformat render oid o s :
  readable_timestamps fromisoformat o ->
  load_order fromisoformat (oid, save_order render o) s
  = Returns tt (with_orders (<[oid := reloaded_order render o]> (_orders s)) s).
Proof.
  intros [Hsubmitted Hfilled].
  unfold load_order, save_order, subscript, parse_datetime, isoformat,
    reloaded_order. unfold_monad.
  cbn [od_order_id od_client_order_id od_ticker od_side od_quantity_requested
       od_quantity_filled od_status od_average_price od_message od_submitted_at
       od_filled_at].
  rewrite OrderSide_round_trip. unfold mret, M_ret.
  rewrite OrderStatus_round_trip. unfold mret, M_ret. rewrite Hsubmitted.
  destruct (filled_at o) as [t|] eqn:Hf; cbn [fmap option_fmap option_map].
  - destruct (Hfilled t eq_refl) as [Hne Hread].
    rewrite Hread. cbv beta iota.
    case_decide; [contradiction|]. reflexivity.
  - reflexivity.
Qed.
Lemma restore_saved_positions (m : gmap string Position) (s : MockBroker) :
  for_each load_position (map_to_list (save_position <$> m)) (with_positions ∅ s)
  = Returns tt
      (with_positions (map_imap (fun k p => Some (reloaded_position k p)) m) s).
Proof.
  set (blank := mkPosition "" 0 LONG 0 0 0 0 0).
  set (value := fun (k : string) (_ : PositionData) =>
                  reloaded_position k (default blank (m !! k))).
  rewrite (for_each_steps load_position
             (fun x s => with_positions (<[x.1 := value x.1 x.2]> (_positions s)) s)).
  - f_equal. rewrite (fold_steps_positions fst (fun x => value x.1 x.2)).
    cbn [_positions with_positions].
    rewrite (fold_insert_map_to_list value).
    unfold with_positions; cbn. f_equal.
    apply map_eq. intros k. rewrite !map_lookup_imap, lookup_fmap.
    destruct (m !! k) as [p|] eqn:Hk; [|reflexivity].
    cbn. unfold value. now rewrite Hk.
  - intros [k d] Hin s'. apply elem_of_map_to_list in Hin.
    rewrite lookup_fmap in Hin.
    destruct (m !! k) as [p|] eqn:Hk; [|discriminate].
    injection Hin as <-. rewrite load_saved_position.
    unfold value. cbn [fst]. now rewrite Hk.
Qed.

Lemma restore_saved_orders fromisoformat render (m : gmap string OrderResult)
    (s : MockBroker) :
  (forall oid o, m !! oid = Some o -> readable_timestamps fromisoformat o) ->
  for_each (load_order fromisoformat) (map_to_list (save_order render <$> m))
    (with_orders ∅ s)
  = Returns tt (with_orders (reloaded_order render <$> m) s).
Proof.
  intros Hreadable.
  set (blank := mkOrderResult "" "" "" BUY 0 0 PENDING None None "" None).
  set (value := fun (k : string) (_ : OrderData) =>
                  reloaded_order render (default blank (m !! k))).
  rewrite (for_each_steps (load_order fromisoformat)
             (fun x s => with_orders (<[x.1 := value x.1 x.2]> (_orders s)) s)).
  - f_equal. rewrite (fold_steps_orders fst (fun x => value x.1 x.2)).
    cbn [_orders with_orders].
    rewrite (fold_insert_map_to_list value).
    unfold with_orders; cbn. f_equal.
    apply map_eq. intros k. rewrite map_lookup_imap, !lookup_fmap.
    destruct (m !! k) as [o|] eqn:Hk; [|reflexivity].
    cbn. unfold value. now rewrite Hk.
  - intros [k d] Hin s'. apply elem_of_map_to_list in Hin.
    rewrite lookup_fmap in Hin.
    destruct (m !! k) as [o|] eqn:Hk; [|discriminate].
    injection Hin as <-. rewrite (load_saved_order _ _ _ _ _ (Hreadable k o Hk)).
    unfold value. cbn [fst]. now rewrite Hk.
Qed.

(** X15: loading what [save_state] wrote succeeds, into any broker, and
    restores initial cash, cash, margin requirement, margin in use, maximum
    slippage, the price cache, every position (ticker, quantity, side,
    average cost and realised profit; the market-derived fields start at
    zero again) and every order result (its message as the text written).
    The slippage setting and the price provider are not part of the
    snapshot: they stay those of the loading broker. *)
Theorem save_load_round_trip fromisoformat render b target :
  (forall oid o, _orders b !! oid = Some o -> readable_timestamps fromisoformat o) ->
  exists b',
    load_state fromisoformat (save_state render b) target = Returns true b'
    /\ _initial_cash b' = _initial_cash b /\ _cash b' = _cash b
    /\ _margin_requirement b' = _margin_requirement b
    /\ _margin_used b' = _margin_used b
    /\ _max_slippage b' = _max_slippage b /\ _prices b' = _prices b
    /\ _slippage b' = _slippage target
    /\ _price_provider b' = _price_provider target
    /\ (forall ticker,
          _positions b' !! ticker
          = reloaded_position ticker <$> _positions b !! ticker)
    /\ (forall oid,
          _orders b' !! oid = reloaded_order render <$> _orders b !! oid).
Proof.
  intros Hreadable.
  unfold load_state, save_state, try_except_Exception, restore, subscript.
  cbn [sd_initial_cash sd_cash sd_margin_requirement sd_margin_used
       sd_max_slippage sd_prices sd_positions sd_orders default].
  unfold_monad. cbv beta iota. unfold id.
  rewrite restore_saved_positions.
  rewrite (restore_saved_orders fromisoformat render (_orders b) _ Hreadable).
  eexists. split; [reflexivity|].
  cbn [_initial_cash _cash _margin_requirement _margin_used _max_slippage _prices
       _slippage _price_provider _positions _orders with_orders with_positions
       with_prices with_max_slippage with_margin_used with_margin_requirement
       with_cash with_initial_cash].
  repeat (split; [reflexivity|]). split.
  - intros ticker. rewrite map_lookup_imap.
    destruct (_positions b !! ticker); reflexivity.
  - intros oid. apply lookup_fmap.
Qed.
Lemma save_load_round_trip_witness :
  exists b',
    load_state Some (save_state (fun _ => "text") Scenario.book_filled) Scenario.fresh
    = Returns true b'
    /\ _cash b' = _cash Scenario.book_filled
    /\ (quantity <$> _positions b' !! "X") = Some 500%Z
    /\ (status <$> _orders b' !! "order-2") = Some FILLED.
Proof.
  destruct (save_load_round_trip Some (fun _ => "text") Scenario.book_filled
              Scenario.fresh)
    as (b' & Hload & _ & Hcash & _ & _ & _ & _ & _ & _ & Hpos & Hord).
  - intros oid o Hlook.
    assert (Hmap : _orders Scenario.book_filled
                   = {["order-2" := _create_filled_result (Scenario.env "2")
                                      (Scenario.market "X" BUY 500 LONG) 500 100]})
      by (vm_compute; reflexivity).
    rewrite Hmap in Hlook. apply lookup_singleton_Some in Hlook as [_ <-].
    split; [reflexivity|]. intros t [= <-]. split; [discriminate | reflexivity].
  - exists b'. split; [exact Hload|]. split; [exact Hcash|].
    rewrite Hpos, Hord. split; vm_compute; reflexivity.
Defined.

(** X16: a document that lacks one of the four required keys
    ([initial_cash], [cash], [margin_requirement], [margin_used]) is refused
    with [False]; the price cache, the positions, the orders and the
    maximum slippage of the broker are then still those from before the
    call. *)
Theorem load_state_missing_required_key fromisoformat state b :
  sd_initial_cash state = None \/ sd_cash state = None
  \/ sd_margin_requirement state = None \/ sd_margin_used state = None ->
  exists b',
    load_state fromisoformat (Document state) b = Returns false b'
    /\ _prices b' = _prices b /\ _positions b' = _positions b
    /\ _orders b' = _orders b /\ _max_slippage b' = _max_slippage b.
Proof.
  intros Hmissing.
  unfold load_state, try_except_Exception, restore, subscript. unfold_monad.
  destruct (sd_initial_cash state) as [v1|]; [|eexists; split; [reflexivity|]; auto].
  destruct (sd_cash state) as [v2|]; [|eexists; split; [reflexivity|]; auto].
  destruct (sd_margin_requirement state) as [v3|];
    [|eexists; split; [reflexivity|]; auto].
  destruct (sd_margin_used state) as [v4|]; [|eexists; split; [reflexivity|]; auto].
  destruct Hmissing as [H|[H|[H|H]]]; discriminate.
Qed.

Lemma load_state_missing_required_key_witness :
  exists b',
    load_state Some (Document Scenario.truncated_snapshot) Scenario.book_filled
    = Returns false b'
    /\ _positions b' = _positions Scenario.book_filled
    /\ _orders b' = _orders Scenario.book_filled.
Proof.
  destruct (load_state_missing_required_key Some Scenario.truncated_snapshot
              Scenario.book_filled) as (b' & Hload & _ & Hpos & Hord & _).
  - right. right. left. reflexivity.
  - eauto.
Defined.

(** A document that has the four required keys and none of the
    optional ones loads with [True]: the maximum slippage becomes 0.005 and
    the price cache, the positions and the orders become empty, whatever the
    broker held before; slippage and price provider are kept. *)
Lemma load_state_optional_defaults fromisoformat b v1 v2 v3 v4 :
  load_state fromisoformat
    (Document (mkStateDocument (Some v1) (Some v2) (Some v3) (Some v4)
                 None None None None)) b
  = Returns true
      (mkMockBroker v1 v2 v3 v4 (_slippage b) (5 # 1000) (_price_provider b) ∅ ∅ ∅).
Proof. reflexivity. Qed.

(** * Closing positions *)

Lemma Order_init_valid (o : Order) :
  Order_post_init o = true -> Order_init o = mret o.
Proof.
  unfold Order_post_init, Order_init. rewrite !andb_true_iff, !negb_true_iff.
  intros ((-> & ->) & ->). reflexivity.
Qed.

Lemma Order_init_invalid (o : Order) (b : MockBroker) :
  Order_post_init o = false -> exists what, Order_init o b = Raises (ValueError what) b.
Proof.
  unfold Order_post_init, Order_init. unfold_monad.
  destruct (bool_decide (o_order_type o = LIMIT) && bool_decide (o_limit_price o = None));
    [intros _; eexists; reflexivity|].
  destruct (bool_decide (o_order_type o = STOP) && bool_decide (o_stop_price o = None));
    [intros _; eexists; reflexivity|].
  destruct (o_quantity o <=? 0)%Z; [intros _; eexists; reflexivity|].
  cbn. discriminate.
Qed.

(** [close_position] for a ticker without a position, or with a position of
    quantity zero, returns [None] after the read of the position. *)
Lemma close_position_nothing client_id env ticker b :
  match _positions b !! ticker with
  | None => True
  | Some position => quantity position = 0%Z
  end ->
  close_position client_id env ticker b
  = Returns None (final_state (get_position ticker b)).
Proof.
  intros Hnothing. unfold close_position, get_position, store_position. unfold_monad.
  destruct (_positions b !! ticker) as [position|]; [|reflexivity].
  cbn [final_state].
  destruct (refresh_basis b ticker position) as (_ & Hq & _).
  rewrite Hq, Hnothing. reflexivity.
Qed.

(** The closing of a well-signed position, without configured slippage, at
    a price that is not zero. *)
Lemma close_position_held client_id env ticker b position price :
  _positions b !! ticker = Some position ->
  well_signed position ->
  get_current_price ticker b = Some price -> ~ price == 0 ->
  _slippage b == 0 ->
  exists r b',
    close_position client_id env ticker b = Returns (Some r) b'
    /\ status r = FILLED
    /\ quantity_filled r = Z.abs (quantity position)
    /\ average_price r = Some price
    /\ order_id r = uuid4 env /\ client_order_id r = client_id
    /\ _positions b' = delete ticker (_positions b)
    /\ same_settings b b'
    /\ _cash b' + _margin_used b'
       == _cash b + _margin_used b
          + signed (match side position with LONG => SELL | SHORT => BUY end)
              (inject_Z (Z.abs (quantity position)) * price).
Proof.
  intros Hsome Hsigned Hprice Hnz Hslip.
  destruct (refresh_basis b ticker position) as (_ & Hq & Hside & _).
  set (position' := refresh b ticker position) in *.
  set (b1 := with_positions (<[ticker := position']> (_positions b)) b).
  set (order := mkOrder ticker
                  (match side position' with LONG => SELL | SHORT => BUY end)
                  (Z.abs (quantity position')) MARKET None None (side position')
                  client_id "day").
  assert (Hvalid : Order_post_init order = true).
  { unfold Order_post_init, order. cbn. rewrite Hq.
    destruct (Z.leb_spec (Z.abs (quantity position)) 0); [|reflexivity].
    destruct Hsigned as [[_ ?]|[_ ?]]; lia. }
  assert (Hrun0 : close_position client_id env ticker b
                  = (result ← submit_order env order; mret (Some result)) b1).
  { unfold close_position, get_position, store_position. unfold_monad.
    rewrite Hsome. fold position'. fold b1.
    destruct (Z.eqb_spec (quantity position') 0) as [Hz|_].
    { rewrite Hq in Hz. destruct Hsigned as [[_ ?]|[_ ?]]; lia. }
    fold order. rewrite (Order_init_valid order Hvalid). reflexivity. }
  assert (Hsubmit : submit_order env order b1 = execute_and_record env order price b1).
  { apply market_order_at_price; [reflexivity | exact Hprice | exact Hnz | exact Hslip]. }
  assert (Hlook : _positions b1 !! ticker = Some position')
    by (apply lookup_insert_eq).
  rewrite Hrun0. unfold_monad. rewrite Hsubmit.
  unfold execute_and_record, execute_primitive, store_order. unfold_monad.
  cbn [order o_position_side o_side o_ticker o_quantity].
  rewrite Hside, Hq.
  destruct Hsigned as [[Hlong Hpos]|[Hshort Hneg]].
  - rewrite Hlong.
    destruct (long_sell_held ticker (Z.abs (quantity position)) price b1 position'
                Hlook) as (b2 & Hsell & Hcash & Hmargin & _ & Hset & Hpos2).
    { congruence. } { rewrite Hq. lia. }
    rewrite Hq in Hsell, Hcash, Hpos2.
    assert (Hmin : Z.min (Z.abs (quantity position)) (quantity position)
                   = Z.abs (quantity position)) by lia.
    rewrite Hmin in Hsell, Hcash, Hpos2. rewrite Hsell.
    destruct (Z.eqb_spec (Z.abs (quantity position)) 0); [lia|].
    destruct (Z.ltb_spec (Z.abs (quantity position)) (Z.abs (quantity position)));
      [lia|].
    eexists _, _. split; [reflexivity|].
    cbn [status quantity_filled average_price order_id client_order_id
         _create_filled_result _positions _cash _margin_used with_orders
         o_client_order_id order].
    repeat (split; [reflexivity|]).
    rewrite Hpos2, Hcash, Hmargin.
    cbn [quantity with_quantity_realized].
    replace (quantity position - Z.abs (quantity position))%Z with 0%Z by lia.
    cbn [Z.eqb]. split; [apply delete_insert_eq|].
    split; [exact Hset|]. unfold signed. cbn [_cash _margin_used b1 with_positions].
    ring.
  - rewrite Hshort.
    destruct (short_cover_held ticker (Z.abs (quantity position)) price b1 position'
                Hlook) as (b2 & Hcover & Hcash & Hmargin & _ & Hset & Hpos2).
    { congruence. } { rewrite Hq. lia. }
    rewrite Hq in Hcover, Hcash, Hmargin, Hpos2.
    assert (Hmin : Z.min (Z.abs (quantity position)) (Z.abs (quantity position))
                   = Z.abs (quantity position)) by lia.
    rewrite Hmin in Hcover, Hcash, Hmargin, Hpos2. rewrite Hcover.
    destruct (Z.eqb_spec (Z.abs (quantity position)) 0); [lia|].
    destruct (Z.ltb_spec (Z.abs (quantity position)) (Z.abs (quantity position)));
      [lia|].
    eexists _, _. split; [reflexivity|].
    cbn [status quantity_filled average_price order_id client_order_id
         _create_filled_result _positions _cash _margin_used with_orders
         o_client_order_id order].
    repeat (split; [reflexivity|]).
    rewrite Hpos2, Hcash, Hmargin.
    cbn [quantity with_quantity_realized].
    replace (quantity position + Z.abs (quantity position))%Z with 0%Z by lia.
    cbn [Z.eqb]. split; [apply delete_insert_eq|].
    split; [exact Hset|]. unfold signed.
    cbn [_cash _margin_used _margin_requirement b1 with_positions]. ring.
Qed.


(** X18: [close_position] for a ticker that has no position, or a position
    of quantity zero, returns [None]: no order is placed, and cash, margin
    in use, the order map, the settings and the other positions are as
    before. *)
Theorem close_position_nothing_to_close client_id env ticker b :
  match _positions b !! ticker with
  | None => True
  | Some position => quantity position = 0%Z
  end ->
  exists b',
    close_position client_id env ticker b = Returns None b'
    /\ _orders b' = _orders b /\ _cash b' = _cash b
    /\ _margin_used b' = _margin_used b /\ same_settings b b'
    /\ forall other, other <> ticker ->
         _positions b' !! other = _positions b !! other.
Proof.
  intros Hnothing. rewrite (close_position_nothing _ _ _ _ Hnothing).
  eexists. split; [reflexivity|].
  unfold get_position, store_position. unfold_monad.
  destruct (_positions b !! ticker) as [position|]; cbn [final_state].
  - cbn [_orders _cash _margin_used _positions with_positions].
    repeat (split; [reflexivity|]). split; [repeat split|].
    intros other Hne. now rewrite lookup_insert_ne.
  - repeat (split; [reflexivity|]). split; [repeat split|]. reflexivity.
Qed.

Lemma close_position_nothing_to_close_witness :
  exists b',
    close_position "client-9" (Scenario.env "9") "X" Scenario.book_short_then_long
    = Returns None b'
    /\ _orders b' = _orders Scenario.book_short_then_long.
Proof.
  destruct (close_position_nothing_to_close "client-9" (Scenario.env "9") "X"
              Scenario.book_short_then_long) as (b' & Hrun & Hord & _).
  - vm_compute. reflexivity.
  - eauto.
Defined.

Lemma same_settings_price b b' ticker :
  same_settings b b' -> get_current_price ticker b' = get_current_price ticker b.
Proof.
  intros (_ & _ & _ & _ & Hprovider & Hprices).
  unfold get_current_price. now rewrite Hprovider, Hprices.
Qed.

Lemma same_settings_trans b1 b2 b3 :
  same_settings b1 b2 -> same_settings b2 b3 -> same_settings b1 b3.
Proof.
  unfold same_settings. intros (? & ? & ? & ? & ? & ?) (? & ? & ? & ? & ? & ?).
  repeat split; congruence.
Qed.

(** The loop of [close_all_positions] over tickers that all hold a
    well-signed position with a current price that is not zero. *)
Lemma close_each_closes draws (tickers : list string) :
  NoDup tickers ->
  forall b,
    _slippage b == 0 ->
    (forall ticker, ticker ∈ tickers ->
       quoted_nonzero ticker b
       /\ exists position,
            _positions b !! ticker = Some position /\ well_signed position) ->
    exists results b',
      close_each draws tickers b = Returns results b'
      /\ length results = length tickers
      /\ Forall (fun r => status r = FILLED) results
      /\ (forall ticker, ticker ∈ tickers -> _positions b' !! ticker = None)
      /\ (forall ticker, ticker ∉ tickers ->
            _positions b' !! ticker = _positions b !! ticker)
      /\ same_settings b b'.
Proof.
  induction 1 as [|ticker tickers Hfresh Hnodup IH]; intros b Hslip Hheld.
  - exists [], b. split; [reflexivity|]. split; [reflexivity|].
    split; [constructor|]. split; [intros t Ht; now apply elem_of_nil in Ht|].
    split; [reflexivity | apply same_settings_refl].
  - destruct (Hheld ticker (list_elem_of_here _ _))
      as [(price & Hprice & Hnz) (position & Hsome & Hsigned)].
    destruct (close_position_held (draws ticker).1 (draws ticker).2 ticker b
                position price Hsome Hsigned Hprice Hnz Hslip)
      as (r & b1 & Hrun & Hst & _ & _ & _ & _ & Hpos1 & Hset1 & _).
    destruct (IH b1) as (results & b' & Hrest & Hlen & Hall & Hgone & Hkept & Hset).
    { destruct Hset1 as (_ & _ & -> & _). exact Hslip. }
    { intros t Ht. destruct (Hheld t (list_elem_of_further _ _ _ Ht))
        as [(p & Hp & Hpnz) (pos & Hpos & Hs)].
      assert (Hne : t <> ticker) by (intros ->; contradiction).
      split.
      - exists p. rewrite (same_settings_price b b1 t Hset1). auto.
      - exists pos. rewrite Hpos1, lookup_delete_ne by congruence. auto. }
    exists (r :: results), b'.
    split.
    { cbn [close_each]. unfold_monad. rewrite Hrun, Hrest. reflexivity. }
    split; [cbn; now rewrite Hlen|]. split; [now constructor|].
    split; [|split].
    + intros t Ht. apply elem_of_cons in Ht as [->|Ht]; [|now apply Hgone].
      rewrite (Hkept ticker Hfresh), Hpos1. apply lookup_delete_eq.
    + intros t Ht. apply not_elem_of_cons in Ht as [Hne Ht].
      rewrite (Hkept t Ht), Hpos1. now apply lookup_delete_ne.
    + eapply same_settings_trans; eassumption.
Qed.

(** X19: when nothing is configured for slippage and every position has a
    quantity of the sign of its side and a current price that is not zero,
    [close_all_positions] empties the position map: it returns one FILLED
    result per position and leaves the settings and prices as they were. *)
Theorem close_all_positions_closes_all draws b :
  _slippage b == 0 ->
  (forall ticker position,
     _positions b !! ticker = Some position ->
     well_signed position /\ quoted_nonzero ticker b) ->
  exists results b',
    close_all_positions draws b = Returns results b'
    /\ _positions b' = ∅
    /\ length results = size (_positions b)
    /\ Forall (fun r => status r = FILLED) results
    /\ same_settings b b'.
Proof.
  intros Hslip Hheld.
  unfold close_all_positions. unfold_monad. rewrite get_positions_run.
  set (refreshed := map_imap (fun ticker position => Some (refresh b ticker position))
                      (_positions b)).
  set (b0 := with_positions refreshed b).
  assert (Hlookup : forall ticker,
            refreshed !! ticker = refresh b ticker <$> _positions b !! ticker)
    by (intros ticker; apply lookup_refreshed).
  destruct (close_each_closes draws (map_to_list refreshed).*1
              (NoDup_fst_map_to_list refreshed) b0 Hslip)
    as (results & b' & Hrun & Hlen & Hall & Hgone & Hkept & Hset).
  { intros ticker Hin. apply list_elem_of_fmap in Hin as ([t position'] & -> & Hin).
    apply elem_of_map_to_list in Hin. cbn [fst].
    pose proof Hin as Hin'. rewrite Hlookup in Hin'.
    destruct (_positions b !! t) as [position|] eqn:Hpos; [|discriminate].
    injection Hin' as <-.
    destruct (Hheld t position Hpos) as [Hsigned Hquoted].
    split; [exact Hquoted|].
    exists (refresh b t position). split; [exact Hin|].
    destruct (refresh_basis b t position) as (_ & Hq & Hs & _).
    unfold well_signed. rewrite Hq, Hs. exact Hsigned. }
  exists results, b'. split; [exact Hrun|].
  split; [|split; [|split; [exact Hall | exact Hset]]].
  - apply map_eq. intros ticker. rewrite lookup_empty.
    destruct (decide (ticker ∈ (map_to_list refreshed).*1)) as [Hin|Hout].
    + now apply Hgone.
    + rewrite (Hkept ticker Hout). cbn [b0 _positions with_positions].
      destruct (refreshed !! ticker) as [position'|] eqn:Hpos; [|reflexivity].
      exfalso. apply Hout. apply list_elem_of_fmap. exists (ticker, position').
      split; [reflexivity|]. now apply elem_of_map_to_list.
  - rewrite Hlen, length_fmap, length_map_to_list.
    rewrite <- (size_dom (D := gset string) refreshed),
      <- (size_dom (D := gset string) (_positions b)).
    f_equal. apply dom_imap_L. intros ticker. rewrite elem_of_dom.
    split.
    + intros [position Hpos]. exists position. split; [exact Hpos | eauto].
    + intros (position & Hpos & _). eauto.
Qed.
Lemma close_all_positions_closes_all_witness :
  exists results b',
    close_all_positions (fun ticker => ("client-" +:+ ticker, Scenario.env ticker))
      Scenario.book_short = Returns results b'
    /\ _positions b' = ∅ /\ length results = 1%nat.
Proof.
  destruct (close_all_positions_closes_all
              (fun ticker => ("client-" +:+ ticker, Scenario.env ticker))
              Scenario.book_short)
    as (results & b' & Hrun & Hpos & Hlen & _).
  - reflexivity.
  - intros ticker position Hlook.
    assert (Hmap : _positions Scenario.book_short
                   = {["X" := mkPosition "X" (-5) SHORT (500 # 5) 0 0 0 0]})
      by (vm_compute; reflexivity).
    rewrite Hmap in Hlook. apply lookup_singleton_Some in Hlook as [<- <-].
    split.
    + right. split; reflexivity.
    + exists 100. split; [vm_compute; reflexivity | vm_compute; discriminate].
  - exists results, b'. split; [exact Hrun|]. split; [exact Hpos|].
    rewrite Hlen. vm_compute. reflexivity.
Defined.

(** * Trading through the executor *)

(** X20: [execute_trade_via_broker] returns [None] and leaves the broker
    exactly as it was (the price it was given is not even recorded) when
    the quantity is missing or not positive, or when the action is [HOLD],
    which includes every text that is not the value of an action. *)
Theorem execute_trade_nothing_to_do Action_of_text client_id env ticker action qty
    current_price order_type limit_price b :
  qty = None \/ (exists q, qty = Some q /\ (q <= 0)%Z)
  \/ coerce_action Action_of_text action = Action_HOLD ->
  execute_trade_via_broker Action_of_text client_id env ticker action qty
    current_price order_type limit_price b
  = Returns None b.
Proof.
  intros Hnothing. unfold execute_trade_via_broker.
  destruct qty as [q|]; [|reflexivity].
  destruct (Z.leb_spec q 0) as [Hle|Hgt]; [reflexivity|].
  destruct Hnothing as [H|[(q' & [= <-] & H)|H]]; [discriminate | lia |].
  rewrite H. reflexivity.
Qed.

Lemma execute_trade_nothing_to_do_witness :
  execute_trade_via_broker (fun _ => None) "client-1" (Scenario.env "1") "X"
    (inl "wait") (Some 10%Z) (Some 120) "market" None Scenario.quoted
  = Returns None Scenario.quoted.
Proof.
  apply execute_trade_nothing_to_do. right. right. reflexivity.
Defined.



(** X22: with the order type "limit" and no limit price, a trade of a
    positive quantity and an action other than [HOLD] raises the
    [ValueError] of the order constructor; no order is submitted, but the
    price that was passed has already been written to the price cache. *)
Theorem execute_trade_limit_without_price Action_of_text client_id env ticker action
    qty current_price b :
  (0 < qty)%Z ->
  coerce_action Action_of_text action <> Action_HOLD ->
  execute_trade_via_broker Action_of_text client_id env ticker action (Some qty)
    current_price "limit" None b
  = Raises (ValueError "limit_price is required for LIMIT orders")
      (final_state (set_price_if_given ticker current_price b)).
Proof.
  intros Hqty Haction. unfold execute_trade_via_broker, set_price_if_given.
  destruct (Z.leb_spec qty 0); [lia|].
  destruct (coerce_action Action_of_text action) eqn:Ha; try contradiction;
    unfold_monad; destruct current_price; reflexivity.
Qed.

Lemma execute_trade_limit_without_price_witness :
  exists b',
    execute_trade_via_broker (fun _ => None) "client-1" (Scenario.env "2") "X"
      (inr Action_BUY) (Some 500%Z) (Some 120) "limit" None Scenario.quoted
    = Raises (ValueError "limit_price is required for LIMIT orders") b'
    /\ get_current_price "X" Scenario.quoted = Some 100
    /\ get_current_price "X" b' = Some 120
    /\ _orders b' = _orders Scenario.quoted.
Proof.
  eexists. split.
  - apply (execute_trade_limit_without_price (fun _ => None) "client-1"
             (Scenario.env "2") "X" (inr Action_BUY) 500 (Some 120) Scenario.quoted);
      [reflexivity | discriminate].
  - vm_compute. auto.
Defined.

(** * Listing orders *)

Lemma filter_split_length {A} (f : A -> bool) (l : list A) :
  (length (filter (fun x => f x = false) l)
   + length (filter (fun x => f x = true) l) = length l)%nat.
Proof.
  induction l as [|x l IH]; [reflexivity|].
  rewrite !filter_cons. destruct (f x) eqn:Hx.
  - rewrite decide_False by discriminate. rewrite decide_True by reflexivity.
    cbn. lia.
  - rewrite decide_True by reflexivity. rewrite decide_False by discriminate.
    cbn. lia.
Qed.

Lemma elem_of_order_values (m : gmap string OrderResult) (o : OrderResult) :
  o ∈ (map_to_list m).*2 <-> exists oid, m !! oid = Some o.
Proof.
  rewrite list_elem_of_fmap. split.
  - intros ([oid o'] & -> & Hin). exists oid. now apply elem_of_map_to_list.
  - intros [oid Hoid]. exists (oid, o). split; [reflexivity|].
    now apply elem_of_map_to_list.
Qed.

(** X23: [get_orders] without a filter lists exactly the stored order
    results; the filter "open" keeps those in a non-terminal status
    (PENDING, SUBMITTED, PARTIAL) and "closed" those in a terminal one, so
    that every stored order is in exactly one of the two lists; any other
    filter text lists everything. *)
Theorem get_orders_lists b :
  (forall o, o ∈ get_orders None b <-> exists oid, _orders b !! oid = Some o)
  /\ (forall o, o ∈ get_orders (Some "open") b
                <-> (exists oid, _orders b !! oid = Some o)
                    /\ non_terminal_status (status o))
  /\ (forall o, o ∈ get_orders (Some "closed") b
                <-> (exists oid, _orders b !! oid = Some o)
                    /\ terminal_status (status o))
  /\ (length (get_orders (Some "open") b) + length (get_orders (Some "closed") b)
      = size (_orders b))%nat
  /\ (forall text, text <> "open" -> text <> "closed" ->
        get_orders (Some text) b = get_orders None b).
Proof.
  unfold get_orders. split; [|split; [|split; [|split]]].
  - intros o. rewrite decide_False by discriminate.
    rewrite decide_False by discriminate. apply elem_of_order_values.
  - intros o. rewrite decide_True by reflexivity.
    rewrite list_elem_of_filter, elem_of_order_values, is_terminal_false. tauto.
  - intros o. rewrite decide_False by discriminate.
    rewrite decide_True by reflexivity.
    rewrite list_elem_of_filter, elem_of_order_values, is_terminal_true. tauto.
  - rewrite decide_True by reflexivity.
    rewrite (decide_False (P := Some "closed" = Some "open")) by discriminate.
    rewrite decide_True by reflexivity.
    rewrite filter_split_length, length_fmap. apply length_map_to_list.
  - intros text Hopen Hclosed.
    rewrite (decide_False (P := Some text = Some "open")) by congruence.
    rewrite (decide_False (P := Some text = Some "closed")) by congruence.
    rewrite (decide_False (P := None = Some "open")) by discriminate.
    rewrite (decide_False (P := None = Some "closed")) by discriminate.
    reflexivity.
Qed.

(** * The performance summary *)

Lemma get_performance_summary_run b :
  exists s,
    get_performance_summary b = Returns s (final_state (get_positions b))
    /\ initial_capital s = _initial_cash b
    /\ s_cash s = _cash b
    /\ s_positions_value s
       = positions_value (_positions (final_state (get_positions b)))
    /\ current_equity s = s_cash s + s_positions_value s
    /\ total_pnl s = current_equity s - initial_capital s
    /\ total_trades s = count_filled (_orders b)
    /\ winning_trades s = count_winning (_positions (final_state (get_positions b)))
    /\ losing_trades s = count_losing (_positions (final_state (get_positions b)))
    /\ win_rate s
       = (if (0 <? winning_trades s + losing_trades s)%Z
          then inject_Z (winning_trades s)
               / inject_Z (winning_trades s + losing_trades s) * 100
          else 0)
    /\ total_pnl_percent s
       = (if Py.gtb (_initial_cash b) 0
          then total_pnl s / _initial_cash b * 100 else 0).
Proof.
  unfold get_performance_summary. unfold_monad. rewrite get_positions_run.
  eexists. split; [reflexivity|]. cbn -[Qplus Qminus Qmult Qdiv inject_Z Z.ltb Z.add].
  repeat split.
Qed.

(** X24: the equity of [get_performance_summary] is cash plus the position
    values after the positions have been refreshed, which is the equity
    that [get_account] reports when it is called afterwards; the total
    profit is that equity minus the initial cash, and the only change to
    the broker is the refresh of the positions. *)
Theorem performance_summary_equity b :
  exists s b',
    get_performance_summary b = Returns s b'
    /\ b' = final_state (get_positions b)
    /\ current_equity s = equity (get_account b')
    /\ s_cash s = a_cash (get_account b')
    /\ total_pnl s = current_equity s - _initial_cash b.
Proof.
  destruct (get_performance_summary_run b)
    as (s & Hrun & Hinit & Hcash & Hvalue & Hequity & Hpnl & _).
  exists s, (final_state (get_positions b)).
  split; [exact Hrun|]. split; [reflexivity|].
  rewrite Hequity, Hcash, Hvalue, Hpnl, Hequity, Hcash, Hvalue, Hinit.
  rewrite get_account_equity. rewrite get_positions_run. repeat split.
Qed.

Lemma count_winning_nonneg (m : gmap string Position) : (0 <= count_winning m)%Z.
Proof.
  unfold count_winning.
  apply (map_fold_weak_ind (fun n _ => (0 <= n)%Z)); [lia|].
  intros ticker pos m' n _ Hn. destruct (Py.gtb _ _); lia.
Qed.

Lemma count_losing_nonneg (m : gmap string Position) : (0 <= count_losing m)%Z.
Proof.
  unfold count_losing.
  apply (map_fold_weak_ind (fun n _ => (0 <= n)%Z)); [lia|].
  intros ticker pos m' n _ Hn. destruct (Py.gtb _ _); [lia|].
  destruct (Py.ltb _ _); lia.
Qed.

Lemma count_filled_bounds (m : gmap string OrderResult) :
  (0 <= count_filled m <= Z.of_nat (size m))%Z.
Proof.
  unfold count_filled.
  apply (map_fold_weak_ind
           (fun n m => (0 <= n <= Z.of_nat (size m))%Z)).
  - rewrite map_size_empty. lia.
  - intros oid o m' n Hfresh Hn. rewrite map_size_insert_None by assumption.
    destruct (bool_decide _); lia.
Qed.

Lemma count_win_loss_bound (m : gmap string Position) :
  (count_winning m + count_losing m <= Z.of_nat (size m))%Z.
Proof.
  unfold count_winning, count_losing.
  rewrite !map_fold_foldr, <- length_map_to_list.
  induction (map_to_list m) as [|[k pos] l IH]; [cbn; lia|].
  cbn [foldr uncurry length].
  destruct (Py.gtb (realized_pnl pos) 0); [|destruct (Py.ltb (realized_pnl pos) 0)];
    lia.
Qed.

(** X25: in the summary the trade count is the number of FILLED order
    results (PARTIAL fills are not counted), the winning and losing counts
    are counts of open positions (together at most their number), and the
    win rate lies between 0 and 100. *)
Theorem performance_summary_counts b :
  exists s b',
    get_performance_summary b = Returns s b'
    /\ total_trades s = count_filled (_orders b)
    /\ (0 <= total_trades s <= Z.of_nat (size (_orders b)))%Z
    /\ (0 <= winning_trades s)%Z /\ (0 <= losing_trades s)%Z
    /\ (winning_trades s + losing_trades s <= Z.of_nat (size (_positions b)))%Z
    /\ 0 <= win_rate s <= 100.
Proof.
  destruct (get_performance_summary_run b)
    as (s & Hrun & _ & _ & _ & _ & _ & Htrades & Hwin & Hlose & Hrate & _).
  exists s, (final_state (get_positions b)).
  split; [exact Hrun|]. split; [exact Htrades|].
  split; [rewrite Htrades; apply count_filled_bounds|].
  pose proof (count_winning_nonneg (_positions (final_state (get_positions b)))) as Hw.
  pose proof (count_losing_nonneg (_positions (final_state (get_positions b)))) as Hl.
  pose proof (count_win_loss_bound (_positions (final_state (get_positions b)))) as Hwl.
  rewrite <- Hwin in Hw, Hwl. rewrite <- Hlose in Hl, Hwl.
  split; [exact Hw|]. split; [exact Hl|]. split.
  - assert (Hsize : size (_positions (final_state (get_positions b)))
                    = size (_positions b)).
    { rewrite get_positions_run. cbn [final_state _positions with_positions].
      rewrite <- !(size_dom (D := gset string)). f_equal.
      apply dom_imap_L. intros ticker. rewrite elem_of_dom. split.
      - intros [position Hpos]. exists position. split; [exact Hpos | eauto].
      - intros (position & Hpos & _). eauto. }
    rewrite <- Hsize. exact Hwl.
  - rewrite Hrate.
    destruct (Z.ltb_spec 0 (winning_trades s + losing_trades s)) as [Hpos|_];
      [|lra].
    assert (Hd : 0 < inject_Z (winning_trades s + losing_trades s))
      by (now apply inject_Z_pos).
    assert (Hn : 0 <= inject_Z (winning_trades s))
      by (unfold Qle; cbn; lia).
    assert (Hle : inject_Z (winning_trades s)
                  <= inject_Z (winning_trades s + losing_trades s))
      by (unfold Qle; cbn; lia).
    split.
    + apply Qmult_le_0_compat; [|lra]. apply Qle_shift_div_l; lra.
    + assert (H1 : inject_Z (winning_trades s)
                   / inject_Z (winning_trades s + losing_trades s) <= 1)
        by (apply Qle_shift_div_r; lra).
      lra.
Qed.

(** * Prices and reset *)

(** X26: after [set_prices], a ticker listed in the argument has the
    listed price and any other ticker the price it had before; the cache
    takes precedence over the price provider; and [set_price] is
    [set_prices] with a single entry. *)
Theorem set_prices_current prices b :
  (forall ticker,
     get_current_price ticker (final_state (set_prices prices b))
     = match prices !! ticker with
       | Some price => Some price
       | None => get_current_price ticker b
       end)
  /\ (forall ticker price,
        final_state (set_price ticker price b)
        = final_state (set_prices {[ticker := price]} b)).
Proof.
  split.
  - intros ticker. unfold get_current_price, set_prices. unfold_monad.
    cbn [final_state _prices _price_provider with_prices].
    rewrite lookup_union.
    destruct (prices !! ticker) as [price|]; [|now rewrite (left_id_L None _)].
    now destruct (_prices b !! ticker).
  - intros ticker price. unfold set_price, set_prices. unfold_monad.
    cbn [final_state]. now rewrite insert_union_singleton_l.
Qed.

(** X27: [reset] leaves the broker as its constructor would with the same
    settings: cash is the initial cash, nothing is held on margin, and
    positions, orders and prices are empty.  Since the price cache is
    emptied too, a broker without a price provider rejects every order
    after a reset until prices are set again. *)
Theorem reset_restores b :
  let fresh := final_state (reset b) in
  fresh = MockBroker_init (_initial_cash b) (_margin_requirement b) (_slippage b)
            (_max_slippage b) (_price_provider b)
  /\ equity (get_account fresh) == _initial_cash b
  /\ (_price_provider b = None ->
      forall env order,
        submit_order env order fresh
        = Returns (_create_rejected_result env order
                     (NoPriceAvailable (o_ticker order))) fresh).
Proof.
  intros fresh. split; [reflexivity|]. split.
  - unfold fresh, reset. unfold_monad. rewrite get_account_equity.
    cbn [final_state _cash _positions]. unfold positions_value.
    rewrite map_fold_empty. ring.
  - intros Hprovider env order. apply submit_order_no_price.
    unfold fresh, reset, get_current_price. unfold_monad.
    cbn [final_state _prices _price_provider].
    now rewrite lookup_empty, Hprovider.
Qed.

Lemma reset_restores_witness :
  submit_order (Scenario.env "9") (Scenario.market "X" BUY 1 LONG)
    (final_state (reset Scenario.book_filled))
  = Returns (_create_rejected_result (Scenario.env "9")
               (Scenario.market "X" BUY 1 LONG) (NoPriceAvailable "X"))
      (final_state (reset Scenario.book_filled)).
Proof.
  destruct (reset_restores Scenario.book_filled) as (_ & _ & Hreject).
  apply Hreject. reflexivity.
Defined.

(** * Keys of the ledger *)

Lemma keyed_positions_insert ticker position (m : gmap string Position) :
  (forall t p, m !! t = Some p -> p_ticker p = t) ->
  p_ticker position = ticker ->
  forall t p, <[ticker := position]> m !! t = Some p -> p_ticker p = t.
Proof.
  intros Hm Hp t p. destruct (decide (t = ticker)) as [->|Hne].
  - rewrite lookup_insert_eq. congruence.
  - rewrite lookup_insert_ne by congruence. apply Hm.
Qed.

Lemma keyed_positions_delete ticker (m : gmap string Position) :
  (forall t p, m !! t = Some p -> p_ticker p = t) ->
  forall t p, delete ticker m !! t = Some p -> p_ticker p = t.
Proof.
  intros Hm t p. destruct (decide (t = ticker)) as [->|Hne].
  - rewrite lookup_delete_eq. discriminate.
  - rewrite lookup_delete_ne by congruence. apply Hm.
Qed.

Lemma position_or_new_ticker ticker side b :
  (forall t p, _positions b !! t = Some p -> p_ticker p = t) ->
  p_ticker (position_or_new ticker side b) = ticker.
Proof.
  intros Hm. unfold position_or_new.
  destruct (_positions b !! ticker) as [p|] eqn:Hp; [now apply Hm | reflexivity].
Qed.

Lemma short_open_positions ticker qty price b filled b' :
  _execute_short_open ticker qty price b = Returns filled b' ->
  exists position,
    p_ticker position = p_ticker (position_or_new ticker SHORT b)
    /\ _positions b' = <[ticker := position]> (_positions b).
Proof.
  unfold _execute_short_open, _get_or_create_position, store_position, position_or_new.
  unfold_monad.
  destruct (Py.gtb _ _).
  - destruct (Py.div _ _); [|discriminate]. cbv beta iota.
    destruct (_ =? _)%Z; [discriminate|].
    destruct (_positions b !! ticker); intros [= <- <-]; eexists;
      (split; [|cbn [_positions with_positions with_cash with_margin_used];
                rewrite ?insert_insert_eq; reflexivity]); reflexivity.
  - destruct (_positions b !! ticker); intros [= <- <-]; eexists;
      (split; [|cbn [_positions with_positions with_cash with_margin_used];
                rewrite ?insert_insert_eq; reflexivity]); reflexivity.
Qed.

Lemma execute_primitive_keyed order price b filled b' :
  (forall t p, _positions b !! t = Some p -> p_ticker p = t) ->
  execute_primitive order price b = Returns filled b' ->
  forall t p, _positions b' !! t = Some p -> p_ticker p = t.
Proof.
  intros Hkeyed. unfold execute_primitive.
  destruct (o_position_side order), (o_side order).
  - assert (Hbought : forall q t p,
              _positions (bought (o_ticker order) q price b) !! t = Some p ->
              p_ticker p = t).
    { intros q. unfold bought. cbn [_positions with_positions with_cash].
      apply keyed_positions_insert; [exact Hkeyed|].
      now apply position_or_new_ticker. }
    destruct (Py.gtb (Py.float (o_quantity order) * price) (_cash b)) eqn:Hcost.
    + destruct (Z.eq_dec (long_buy_max_qty price b) 0) as [Hz|Hnz].
      * rewrite long_buy_insufficient by assumption. discriminate.
      * rewrite long_buy_clamped by assumption. intros [= _ <-]. apply Hbought.
    + rewrite long_buy_unclamped by assumption. intros [= _ <-]. apply Hbought.
  - unfold _execute_long_sell, store_position, del_position. unfold_monad.
    destruct (_positions b !! o_ticker order) as [position|] eqn:Hpos;
      [|intros [= _ <-]; exact Hkeyed].
    destruct (negb _); [intros [= _ <-]; exact Hkeyed|].
    destruct (_ <=? _)%Z; [intros [= _ <-]; exact Hkeyed|].
    cbv beta iota. destruct (_ =? _)%Z; intros [= _ <-];
      cbn [_positions with_positions with_cash].
    + apply keyed_positions_delete, keyed_positions_insert;
        [exact Hkeyed | cbn [p_ticker with_quantity_realized]; now apply Hkeyed].
    + apply keyed_positions_insert;
        [exact Hkeyed | cbn [p_ticker with_quantity_realized]; now apply Hkeyed].
  - unfold _execute_short_cover, store_position, del_position. unfold_monad.
    destruct (_positions b !! o_ticker order) as [position|] eqn:Hpos;
      [|intros [= _ <-]; exact Hkeyed].
    destruct (negb _); [intros [= _ <-]; exact Hkeyed|].
    destruct (_ <=? _)%Z; [intros [= _ <-]; exact Hkeyed|].
    cbv beta iota. destruct (_ =? _)%Z; intros [= _ <-];
      cbn [_positions with_positions with_cash with_margin_used].
    + apply keyed_positions_delete, keyed_positions_insert;
        [exact Hkeyed | cbn [p_ticker with_quantity_realized]; now apply Hkeyed].
    + apply keyed_positions_insert;
        [exact Hkeyed | cbn [p_ticker with_quantity_realized]; now apply Hkeyed].
  - intros Hrun. apply short_open_positions in Hrun as (position & Hticker & ->).
    apply keyed_positions_insert; [exact Hkeyed|].
    rewrite Hticker. now apply position_or_new_ticker.
Qed.

(** X28: the engine keeps its maps keyed consistently: if every position
    is stored under its own ticker and every order result under its own id
    (as in a new broker), the same holds after [submit_order], after
    [cancel_order] and after [get_positions]. *)
Theorem keyed_preserved b :
  keyed b ->
  (forall env order r b', submit_order env order b = Returns r b' -> keyed b')
  /\ (forall oid ok b', cancel_order oid b = Returns ok b' -> keyed b')
  /\ keyed (final_state (get_positions b)).
Proof.
  intros [Hpos Hord]. split; [|split].
  - intros env order r b' Hrun.
    apply submit_order_cases in Hrun
      as [[-> _] | [(-> & _ & _ & _ & Hid & _) | [exec_price Hrun]]].
    + split; assumption.
    + split; [exact Hpos|]. intros oid o. cbn [_orders with_orders].
      destruct (decide (oid = order_id r)) as [->|Hne].
      * rewrite lookup_insert_eq. congruence.
      * rewrite lookup_insert_ne by congruence. apply Hord.
    + apply execute_and_record_cases in Hrun
        as [[-> _] | (filled & b1 & Hexec & -> & Hres)]; [split; assumption|].
      pose proof (execute_primitive_keyed _ _ _ _ _ Hpos Hexec) as Hpos1.
      apply execute_primitive_frame in Hexec as [_ Hord1].
      split; [exact Hpos1|]. intros oid o. cbn [_orders with_orders].
      destruct (decide (oid = order_id r)) as [->|Hne].
      * rewrite lookup_insert_eq. congruence.
      * rewrite lookup_insert_ne, Hord1 by congruence. apply Hord.
  - intros oid ok b'. unfold cancel_order. unfold_monad.
    destruct (_orders b !! oid) as [order|] eqn:Hsome;
      [|intros [= _ <-]; split; assumption].
    destruct (is_terminal order); intros [= _ <-]; [split; assumption|].
    split; [exact Hpos|]. intros oid' o. cbn [_orders with_orders].
    destruct (decide (oid' = oid)) as [->|Hne].
    + rewrite lookup_insert_eq. intros [= <-]. cbn. now apply Hord.
    + rewrite lookup_insert_ne by congruence. apply Hord.
  - rewrite get_positions_run. cbn [final_state]. split; [|exact Hord].
    intros ticker position'. cbn [_positions with_positions].
    rewrite lookup_refreshed.
    destruct (_positions b !! ticker) as [position|] eqn:Hsome; [|discriminate].
    intros [= <-]. destruct (refresh_basis b ticker position) as (-> & _).
    now apply Hpos.
Qed.

Lemma keyed_preserved_witness : keyed Scenario.book_filled.
Proof.
  assert (Hfresh : keyed Scenario.quoted).
  { split; intros k v Hlook; vm_compute in Hlook; discriminate. }
  destruct (keyed_preserved Scenario.quoted Hfresh) as (Hsubmit & _ & _).
  apply (Hsubmit (Scenario.env "2") (Scenario.market "X" BUY 500 LONG)
           (_create_filled_result (Scenario.env "2")
              (Scenario.market "X" BUY 500 LONG) 500 100)).
  vm_compute. reflexivity.
Defined.

(** * Cash on the long side *)





(** * The margin clamp of a short sale *)




